(** * Habit tracker: the local state and synchronisation model of [src/App.tsx]

    A shallow embedding of the domain reducer, the local-storage hook, the
    Google-Sheets hook (which in this build only mirrors local storage), the
    event handlers of [App] and the derived-view calculators of the Today,
    Calendar and Stats views, followed by the properties established for
    them.

    Conventions.
    - JavaScript strings are [string]; [===] on strings is [String.eqb].
    - Arrays are lists; [push] appends at the end, [filter] and [find] are
      [List.filter] and [List.find].
    - The two slider scores are integers ([parseInt] of the slider value),
      modelled in [Z].
    - Ratios of array lengths are modelled as exact rationals extended with
      the two special values a division of lengths can produce ([JsNum]);
      the rounding of IEEE doubles is not modelled. *)

From Stdlib Require Import List String Ascii Bool Arith ZArith QArith Qround Lia Lqa.
From Stdlib Require Import Permutation.
Import ListNotations.

Close Scope Q_scope.
Local Open Scope string_scope.
Local Open Scope list_scope.
Local Open Scope nat_scope.

(** * Part I: the model *)

(** ** Types *)

Module Habit.
Record t : Type := mk
  { id : string;
    icon : string;
    name : string;
    active : bool }.
End Habit.

Module DailyLog.
Record t : Type := mk
  { date : string;       (* YYYY-MM-DD *)
    habitId : string;
    completed : bool }.
End DailyLog.

Module MoodLog.
Record t : Type := mk
  { date : string;       (* YYYY-MM-DD *)
    moodScore : Z;       (* 1-10 *)
    motivationScore : Z  (* 1-10 *) }.
End MoodLog.

(** ['today' | 'calendar' | 'stats' | 'settings'] *)
Module View.
Inductive t : Type := today | calendar | stats | settings.
End View.

(** A JavaScript [Date], as its time value. *)
Definition JsDate : Type := Z.

Module AppState.
Record t : Type := mk
  { habits : list Habit.t;
    dailyLogs : list DailyLog.t;
    moodLogs : list MoodLog.t;
    currentView : View.t;
    currentMonth : JsDate;
    isLoading : bool;
    isSyncing : bool;
    error : option string }.
End AppState.

Module Config.
Record t : Type := mk
  { spreadsheetId : string;
    apiKey : string }.
End Config.

(** The object [{ habits, dailyLogs, moodLogs }] returned by [fetchData],
    exposed as [data] by the hook and carried by [SET_DATA]. *)
Module Data.
Record t : Type := mk
  { habits : list Habit.t;
    dailyLogs : list DailyLog.t;
    moodLogs : list MoodLog.t }.
End Data.

(** ** Array helpers *)

(** [Array.prototype.findIndex]: the index of the first element that
    satisfies [p], or [-1]. *)
Fixpoint findIndexFrom {A : Type} (p : A -> bool) (l : list A) (i : Z) : Z :=
  match l with
  | [] => (-1)%Z
  | x :: r => if p x then i else findIndexFrom p r (i + 1)%Z
  end.

Definition findIndex {A : Type} (p : A -> bool) (l : list A) : Z :=
  findIndexFrom p l 0%Z.

(** [arr[i] = v] for an index inside the array.  (Outside it JavaScript
    would grow the array; the only index ever assigned comes from
    [findIndex] and is inside, see [findIndex_in_range].) *)
Fixpoint arraySet {A : Type} (l : list A) (i : nat) (v : A) : list A :=
  match l, i with
  | [], _ => []
  | _ :: r, O => v :: r
  | x :: r, S j => x :: arraySet r j v
  end.

(** Truthiness of a string: every string but the empty one. *)
Definition truthy (s : string) : bool := negb (s =? EmptyString)%string.

(** ** Numbers produced by dividing array lengths *)

Inductive JsNum : Type :=
| Fin (q : Q)
| PosInf
| NaN.

(** [a / b] for two array lengths: [0 / 0] is [NaN], [a / 0] is
    [Infinity] for positive [a]. *)
Definition lengthRatio (a b : nat) : JsNum :=
  match b with
  | O => match a with O => NaN | S _ => PosInf end
  | S _ => Fin (Z.of_nat a # Pos.of_nat b)
  end.

(** [x * k] for a positive literal [k] *)
Definition jsTimes (x : JsNum) (k : Q) : JsNum :=
  match x with
  | Fin q => Fin (q * k)
  | PosInf => PosInf
  | NaN => NaN
  end.

(** [x >= k] *)
Definition jsGe (x : JsNum) (k : Q) : bool :=
  match x with
  | Fin q => Qle_bool k q
  | PosInf => true
  | NaN => false
  end.

(** [x > k] *)
Definition jsGt (x : JsNum) (k : Q) : bool :=
  match x with
  | Fin q => negb (Qle_bool q k)
  | PosInf => true
  | NaN => false
  end.

(** ** Reducer *)

Inductive Action : Type :=
| SET_LOADING (payload : bool)
| SET_SYNCING (payload : bool)
| SET_ERROR (payload : option string)
| SET_DATA (payload : Data.t)
| SET_VIEW (payload : View.t)
| SET_MONTH (payload : JsDate)
| TOGGLE_HABIT (date habitId : string)
| UPDATE_MOOD (payload : MoodLog.t).

Definition initialState (now : JsDate) : AppState.t :=
  AppState.mk [] [] [] View.today now true false None.

(** [l.date === date && l.habitId === habitId] *)
Definition sameKey (date habitId : string) (l : DailyLog.t) : bool :=
  (DailyLog.date l =? date)%string && (DailyLog.habitId l =? habitId)%string.

(** [l.date === date] on mood logs *)
Definition sameDate (date : string) (l : MoodLog.t) : bool :=
  (MoodLog.date l =? date)%string.

Definition reducer (state : AppState.t) (action : Action) : AppState.t :=
  let '(AppState.mk habits dailyLogs moodLogs currentView currentMonth
                    isLoading isSyncing error) := state in
  match action with
  | SET_LOADING payload =>
      AppState.mk habits dailyLogs moodLogs currentView currentMonth
                  payload isSyncing error
  | SET_SYNCING payload =>
      AppState.mk habits dailyLogs moodLogs currentView currentMonth
                  isLoading payload error
  | SET_ERROR payload =>
      AppState.mk habits dailyLogs moodLogs currentView currentMonth
                  isLoading isSyncing payload
  | SET_DATA payload =>
      AppState.mk (Data.habits payload) (Data.dailyLogs payload)
                  (Data.moodLogs payload) currentView currentMonth
                  false isSyncing error
  | SET_VIEW payload =>
      AppState.mk habits dailyLogs moodLogs payload currentMonth
                  isLoading isSyncing error
  | SET_MONTH payload =>
      AppState.mk habits dailyLogs moodLogs currentView payload
                  isLoading isSyncing error
  | TOGGLE_HABIT date habitId =>
      let existingLog := find (sameKey date habitId) dailyLogs in
      let completed :=
        match existingLog with
        | Some l => negb (DailyLog.completed l)
        | None => true
        end in
      let newLogs :=
        filter (fun l => negb (sameKey date habitId l)) dailyLogs in
      AppState.mk habits (newLogs ++ [DailyLog.mk date habitId completed])
                  moodLogs currentView currentMonth isLoading isSyncing error
  | UPDATE_MOOD payload =>
      let newMoods :=
        filter (fun l => negb (sameDate (MoodLog.date payload) l)) moodLogs in
      AppState.mk habits dailyLogs (newMoods ++ [payload])
                  currentView currentMonth isLoading isSyncing error
  end.

(** Actions dispatched one after the other. *)
Definition dispatchAll (state : AppState.t) (actions : list Action) : AppState.t :=
  fold_left reducer actions state.

Definition toggles (date habitId : string) (n : nat) : list Action :=
  repeat (TOGGLE_HABIT date habitId) n.

(** The records of a collection that carry a given logical key. *)
Definition logsFor (date habitId : string) (logs : list DailyLog.t) : list DailyLog.t :=
  filter (sameKey date habitId) logs.

Definition moodsFor (date : string) (logs : list MoodLog.t) : list MoodLog.t :=
  filter (sameDate date) logs.

(** ** Local storage *)

(** How a JavaScript expression completes: with a value, or by throwing. *)
Inductive Completion (A : Type) : Type :=
| Normal (a : A)
| Throw (e : string).
Arguments Normal {A} a.
Arguments Throw {A} e.

Definition andThen {A B : Type} (c : Completion A) (k : A -> Completion B)
  : Completion B :=
  match c with
  | Normal a => k a
  | Throw e => Throw e
  end.

(** [try { body } catch (error) { handler }] *)
Definition tryCatch {A : Type} (body : Completion A)
  (handler : string -> Completion A) : Completion A :=
  match body with
  | Normal a => Normal a
  | Throw e => handler e
  end.

Section UseLocalStorage.
Context {T : Type}.

(** [window.localStorage.getItem]: [null] (here [None]) for an absent key,
    the stored text otherwise; access to the storage may itself throw. *)
Variable getItem : string -> Completion (option string).

(** [JSON.parse], which throws a [SyntaxError] on text that is not JSON. *)
Variable JSON_parse : string -> Completion T.

(** The initializer passed to [useState] in [useLocalStorage]:
    [item ? JSON.parse(item) : initialValue], where [null] and the empty
    string are falsy, with [console.error(error); return initialValue] as
    the handler. *)
Definition useLocalStorage_initializer (key : string) (initialValue : T)
  : Completion T :=
  tryCatch
    (andThen (getItem key) (fun item =>
       match item with
       | Some text => if truthy text then JSON_parse text else Normal initialValue
       | None => Normal initialValue
       end))
    (fun error => Normal initialValue).

End UseLocalStorage.

(** ** The Google-Sheets hook and the application around it *)

(** The React state held by [useGoogleSheets]: its three flags and the
    three collections kept by [useLocalStorage]. *)
Module Hook.
Record t : Type := mk
  { isLoading : bool;
    isSyncing : bool;
    error : option string;
    localHabits : list Habit.t;
    localDailyLogs : list DailyLog.t;
    localMoodLogs : list MoodLog.t }.
End Hook.

(** The reducer state of [App] together with the state of the hook. *)
Module App.
Record t : Type := mk
  { state : AppState.t;
    hook : Hook.t }.
End App.

Inductive Callback : Type :=
| CbSetIsLoading (b : bool)
| CbRefetch.

(** What a handler does besides changing React state. *)
Inductive Event : Type :=
| SetTimeout (callback : Callback) (ms : Z)
    (* setTimeout(() => ..., ms) *)
| Sleep (ms : Z)
    (* await new Promise(resolve => setTimeout(resolve, ms)) *)
| SetItem (key : string)
    (* window.localStorage.setItem(key, JSON.stringify(value)) *)
| Fetch (url : string).
    (* a request to the Sheets API: the three calls of the source sit in a
       comment, so nothing below emits it *)

Definition isFetch (e : Event) : bool :=
  match e with
  | Fetch _ => true
  | _ => false
  end.

(** Handlers run against the application state and leave a trace. *)
Definition M (A : Type) : Type := App.t -> A * App.t * list Event.

Definition ret {A : Type} (a : A) : M A := fun w => (a, w, []).

Definition bind {A B : Type} (m : M A) (k : A -> M B) : M B :=
  fun w =>
    let '(a, w1, t1) := m w in
    let '(b, w2, t2) := k a w1 in
    (b, w2, t1 ++ t2).

Notation "x <- m ;; k" := (bind m (fun x => k))
  (at level 61, m at next level, right associativity).
Notation "m ;; k" := (bind m (fun _ => k))
  (at level 61, right associativity).

Definition getApp : M App.t := fun w => (w, w, []).

Definition emit (e : Event) : M unit := fun w => (tt, w, [e]).

Definition modifyHook (f : Hook.t -> Hook.t) : M unit :=
  fun w => (tt, App.mk (App.state w) (f (App.hook w)), []).

Definition dispatch (action : Action) : M unit :=
  fun w => (tt, App.mk (reducer (App.state w) action) (App.hook w), []).

Definition setIsLoading (b : bool) : M unit :=
  modifyHook (fun h =>
    Hook.mk b (Hook.isSyncing h) (Hook.error h)
            (Hook.localHabits h) (Hook.localDailyLogs h) (Hook.localMoodLogs h)).

Definition setIsSyncing (b : bool) : M unit :=
  modifyHook (fun h =>
    Hook.mk (Hook.isLoading h) b (Hook.error h)
            (Hook.localHabits h) (Hook.localDailyLogs h) (Hook.localMoodLogs h)).

Definition setError (e : option string) : M unit :=
  modifyHook (fun h =>
    Hook.mk (Hook.isLoading h) (Hook.isSyncing h) e
            (Hook.localHabits h) (Hook.localDailyLogs h) (Hook.localMoodLogs h)).

(** The setter returned by [useLocalStorage('ht_dailyLogs', [])]: it stores
    the value in React state, then writes it to local storage. *)
Definition setLocalDailyLogs (logs : list DailyLog.t) : M unit :=
  modifyHook (fun h =>
    Hook.mk (Hook.isLoading h) (Hook.isSyncing h) (Hook.error h)
            (Hook.localHabits h) logs (Hook.localMoodLogs h)) ;;
  emit (SetItem "ht_dailyLogs").

Definition setLocalMoodLogs (logs : list MoodLog.t) : M unit :=
  modifyHook (fun h =>
    Hook.mk (Hook.isLoading h) (Hook.isSyncing h) (Hook.error h)
            (Hook.localHabits h) (Hook.localDailyLogs h) logs) ;;
  emit (SetItem "ht_moodLogs").

(** [!!config.apiKey && !!config.spreadsheetId] *)
Definition hasConfig (config : Config.t) : bool :=
  truthy (Config.apiKey config) && truthy (Config.spreadsheetId config).

(** [{ habits: localHabits, dailyLogs: localDailyLogs, moodLogs: localMoodLogs }] *)
Definition localData (h : Hook.t) : Data.t :=
  Data.mk (Hook.localHabits h) (Hook.localDailyLogs h) (Hook.localMoodLogs h).

(** How the promise awaited inside the [try] block settles.  The promise of
    the source only waits for a timer, so it always resolves; the rejected
    case is what the [catch] clause would handle. *)
Inductive Settled : Type :=
| Resolved
| Rejected (message : string).

Definition fetchData (config : Config.t) (awaited : Settled) : M Data.t :=
  setIsLoading true ;;
  setError None ;;
  w <- getApp ;;
  let local := localData (App.hook w) in
  if negb (hasConfig config) then
    emit (SetTimeout (CbSetIsLoading false) 500) ;;
    ret local
  else
    result <- (emit (Sleep 800) ;;
               match awaited with
               | Resolved => ret local
               | Rejected message =>
                   (* err.message || 'Error syncing' *)
                   setError (Some (if truthy message then message
                                   else "Error syncing")) ;;
                   ret local
               end) ;;
    (* finally *)
    setIsLoading false ;;
    ret result.

Definition updateDailyLog (config : Config.t)
  (date habitId : string) (completed : bool) : M unit :=
  w <- getApp ;;
  let localDailyLogs := Hook.localDailyLogs (App.hook w) in
  let existingIndex := findIndex (sameKey date habitId) localDailyLogs in
  let newLogs :=
    if (0 <=? existingIndex)%Z
    then arraySet localDailyLogs (Z.to_nat existingIndex)
                  (DailyLog.mk date habitId completed)
    else localDailyLogs ++ [DailyLog.mk date habitId completed] in
  setLocalDailyLogs newLogs ;;
  if hasConfig config then
    setIsSyncing true ;;
    emit (Sleep 500) ;;
    setIsSyncing false
  else ret tt.

Definition updateMoodLog (config : Config.t)
  (date : string) (moodScore motivationScore : Z) : M unit :=
  w <- getApp ;;
  let localMoodLogs := Hook.localMoodLogs (App.hook w) in
  let existingIndex := findIndex (sameDate date) localMoodLogs in
  let newLogs :=
    if (0 <=? existingIndex)%Z
    then arraySet localMoodLogs (Z.to_nat existingIndex)
                  (MoodLog.mk date moodScore motivationScore)
    else localMoodLogs ++ [MoodLog.mk date moodScore motivationScore] in
  setLocalMoodLogs newLogs ;;
  if hasConfig config then
    setIsSyncing true ;;
    emit (Sleep 500) ;;
    setIsSyncing false
  else ret tt.

(** *** Handlers of [App]

    [today] stands for [toISODate(new Date())].  A handler reads the
    reducer state current when it is called. *)

Definition handleToggleHabit (config : Config.t) (today habitId : string)
  : M unit :=
  w <- getApp ;;
  let isCompleted :=
    existsb (fun l => sameKey today habitId l && DailyLog.completed l)
            (AppState.dailyLogs (App.state w)) in
  dispatch (TOGGLE_HABIT today habitId) ;;
  updateDailyLog config today habitId (negb isCompleted).

(** ['mood' | 'motivation'] *)
Inductive MoodKind : Type := mood | motivation.

Definition MoodKind_eqb (a b : MoodKind) : bool :=
  match a, b with
  | mood, mood | motivation, motivation => true
  | _, _ => false
  end.

(** [state.moodLogs.find(l => l.date === today) ||
     { date: today, moodScore: 5, motivationScore: 5 }] *)
Definition currentMood (today : string) (state : AppState.t) : MoodLog.t :=
  match find (sameDate today) (AppState.moodLogs state) with
  | Some l => l
  | None => MoodLog.mk today 5 5
  end.

(** [{ ...currentMood, [type === 'mood' ? 'moodScore' : 'motivationScore']: val }] *)
Definition newMood (today : string) (state : AppState.t)
  (type : MoodKind) (val : Z) : MoodLog.t :=
  let current := currentMood today state in
  match type with
  | mood =>
      MoodLog.mk (MoodLog.date current) val (MoodLog.motivationScore current)
  | motivation =>
      MoodLog.mk (MoodLog.date current) (MoodLog.moodScore current) val
  end.

Definition handleMoodChange (config : Config.t) (today : string)
  (type : MoodKind) (val : Z) : M unit :=
  w <- getApp ;;
  let new := newMood today (App.state w) type val in
  dispatch (UPDATE_MOOD new) ;;
  updateMoodLog config today (MoodLog.moodScore new) (MoodLog.motivationScore new).

(** The value a slider shows after [writes]: the last one written to it, or
    [before] when it was not written. *)
Definition lastWritten (type : MoodKind) (writes : list (MoodKind * Z))
  (before : Z) : Z :=
  fold_left (fun acc w => if MoodKind_eqb (fst w) type then snd w else acc)
            writes before.

(** The application state a run ends in. *)
Definition after {A : Type} (m : M A) (w : App.t) : App.t := snd (fst (m w)).

Definition returned {A : Type} (m : M A) (w : App.t) : A := fst (fst (m w)).

Definition trace {A : Type} (m : M A) (w : App.t) : list Event := snd (m w).

(** ** Derived views *)

(** [l.date === date && l.completed] *)
Definition completedOn (date : string) (l : DailyLog.t) : bool :=
  (DailyLog.date l =? date)%string && DailyLog.completed l.

(** [completionRate] of [TodayView] *)
Definition completionRate (state : AppState.t) (today : string) : JsNum :=
  let todayLogs := filter (completedOn today) (AppState.dailyLogs state) in
  if List.length (AppState.habits state) =? 0 then Fin 0
  else jsTimes (lengthRatio (List.length todayLogs)
                            (List.length (AppState.habits state))) 100.

(** The [rate] computed by [getDayData] of [CalendarView], for the day
    whose ISO date is [iso]. *)
Definition getDayData (state : AppState.t) (iso : string) : JsNum :=
  let logs := filter (completedOn iso) (AppState.dailyLogs state) in
  if 0 <? List.length (AppState.habits state)
  then jsTimes (lengthRatio (List.length logs)
                            (List.length (AppState.habits state))) 100
  else Fin 0.

(** The theme colours a calendar cell is drawn with. *)
Inductive ThemeColor : Type :=
| bgTertiary
| textSecondary
| success
| warning
| textTertiary
| white.   (* '#FFF' *)

(** [(bgColor, textColor)] of a calendar cell *)
Definition cellColors (rate : JsNum) : ThemeColor * ThemeColor :=
  if jsGe rate 80 then (success, white)
  else if jsGe rate 40 then (warning, white)
  else if jsGt rate 0 then (textTertiary, white)
  else (bgTertiary, textSecondary).

(** The four intensity tiers, named after the background chosen. *)
Module Tier.
Inductive t : Type := full | partial_high | partial_low | empty.
End Tier.

Definition cellTier (rate : JsNum) : Tier.t :=
  match fst (cellColors rate) with
  | success => Tier.full
  | warning => Tier.partial_high
  | textTertiary => Tier.partial_low
  | _ => Tier.empty
  end.

Section Streak.

(** [isoDaysAgo i] is the ISO date of the day [i] days before today:
    [toISODate(d)] after [d.setDate(today.getDate() - i)]. *)
Variable isoDaysAgo : nat -> string.
Variable state : AppState.t.

Definition dayRate (i : nat) : JsNum :=
  let dayLogs :=
    filter (completedOn (isoDaysAgo i)) (AppState.dailyLogs state) in
  if 0 <? List.length (AppState.habits state)
  then lengthRatio (List.length dayLogs) (List.length (AppState.habits state))
  else Fin 0.

(** The [for] loop of [StatsView], entered at day [i] with
    [remaining = 365 - i] iterations left. *)
Fixpoint streakLoop (remaining i streak : nat) : nat :=
  match remaining with
  | O => streak
  | S remaining' =>
      if jsGe (dayRate i) 1 then streakLoop remaining' (S i) (S streak)
      else if 0 <? i then streak   (* break *)
      else streakLoop remaining' (S i) streak
  end.

Definition currentStreak : nat := streakLoop 365 0 0.

End Streak.

(** ** Sample data *)

Definition habitA : Habit.t := Habit.mk "A" "a" "Habit A" true.
Definition habitB : Habit.t := Habit.mk "B" "b" "Habit B" true.

Definition digit (n : nat) : string :=
  match n with
  | 0 => "0" | 1 => "1" | 2 => "2" | 3 => "3" | 4 => "4"
  | 5 => "5" | 6 => "6" | 7 => "7" | 8 => "8" | _ => "9"
  end.

Definition twoDigits (n : nat) : string := (digit (n / 10) ++ digit (n mod 10))%string.

Fixpoint monthAndDay (months : list nat) (month day : nat) : nat * nat :=
  match months with
  | [] => (month, day)
  | len :: rest =>
      if day <? len then (month, day)
      else monthAndDay rest (S month) (day - len)
  end.

(** The ISO dates of 2026, walking back from its last day. *)
Definition daysBefore_2026_12_31 (i : nat) : string :=
  if i <? 365 then
    let '(m, d) :=
      monthAndDay [31; 28; 31; 30; 31; 30; 31; 31; 30; 31; 30; 31] 1 (364 - i) in
    ("2026-" ++ twoDigits m ++ "-" ++ twoDigits (S d))%string
  else "2025-12-31".

Definition s_fresh : AppState.t := initialState 0%Z.

(** Habits A and B, both done today and yesterday, only A the day before. *)
Definition s_scenario : AppState.t :=
  AppState.mk [habitA; habitB]
    [ DailyLog.mk "2026-12-29" "A" true;
      DailyLog.mk "2026-12-30" "A" true;
      DailyLog.mk "2026-12-30" "B" true;
      DailyLog.mk "2026-12-31" "A" true;
      DailyLog.mk "2026-12-31" "B" true ]
    [] View.stats 0%Z false false None.

(** Habits A and B, both done yesterday, only A done so far today. *)
Definition s_in_progress : AppState.t :=
  AppState.mk [habitA; habitB]
    [ DailyLog.mk "2026-12-30" "A" true;
      DailyLog.mk "2026-12-30" "B" true;
      DailyLog.mk "2026-12-31" "A" true;
      DailyLog.mk "2026-12-31" "B" false ]
    [] View.stats 0%Z false false None.

(** One habit in the catalog, two completed records on the same day. *)
Definition s_surplus : AppState.t :=
  AppState.mk [habitA]
    [ DailyLog.mk "2026-12-31" "A" true;
      DailyLog.mk "2026-12-31" "B" true ]
    [] View.today 0%Z false false None.

(** A hook whose stored collections hold two records under one key. *)
Definition h_duplicates : Hook.t :=
  Hook.mk false false None [habitA]
    [ DailyLog.mk "2026-12-31" "A" false;
      DailyLog.mk "2026-12-31" "A" false ]
    [ MoodLog.mk "2026-12-31" 3 4;
      MoodLog.mk "2026-12-31" 6 7 ].

Definition w_duplicates : App.t := App.mk s_fresh h_duplicates.

Definition h_empty : Hook.t := Hook.mk false false None [habitA; habitB] [] [].

Definition w_scenario : App.t := App.mk s_scenario h_empty.

Definition cfg_none : Config.t := Config.mk EmptyString EmptyString.
Definition cfg_no_key : Config.t := Config.mk "sheet-1" EmptyString.
Definition cfg_full : Config.t := Config.mk "sheet-1" "key-1".

(** A storage with nothing under ["ht_habits"], damaged text under
    ["ht_config"] and a flag under ["flag"]. *)
Definition sampleStorage (key : string) : Completion (option string) :=
  if (key =? "ht_config")%string then Normal (Some "{spreadsheetId:")
  else if (key =? "flag")%string then Normal (Some "true")
  else if (key =? "locked")%string then Throw "SecurityError"
  else Normal None.

(** [JSON.parse] restricted to the two boolean literals. *)
Definition parseBool (text : string) : Completion bool :=
  if (text =? "true")%string then Normal true
  else if (text =? "false")%string then Normal false
  else Throw "SyntaxError".

(** ** More of the application *)

(** [toISODate], given the text [date.toISOString()] returns: the part of
    it before the first ['T'] ([split('T')[0]]). *)
Fixpoint toISODate (isoString : string) : string :=
  match isoString with
  | EmptyString => EmptyString
  | String c rest =>
      if (c =? "T")%char then EmptyString else String c (toISODate rest)
  end.

(** [getDaysInMonth], given what the two [Date] computations return:
    [days] is [new Date(year, month + 1, 0).getDate()] and [firstDay] is
    [new Date(year, month, 1).getDay()], with 0 for Sunday.  The result is
    [{ days, startOffset }]. *)
Definition getDaysInMonth (days firstDay : Z) : Z * Z :=
  let startOffset := if (firstDay =? 0)%Z then 6%Z else (firstDay - 1)%Z in
  (days, startOffset).

(** [rows] of [CalendarView]: [Math.ceil(totalSlots / 7)] *)
Definition calendarRows (days startOffset : Z) : Z :=
  let totalSlots := (days + startOffset)%Z in
  Qceiling (inject_Z totalSlots / 7).

(** The cell drawn at position [idx] of the grid: the day number, or
    nothing for a blank cell. *)
Definition calendarCell (days startOffset idx : Z) : option Z :=
  let dayNum := (idx - startOffset + 1)%Z in
  if (dayNum <? 1)%Z || (dayNum >? days)%Z then None else Some dayNum.

(** [Array.from({ length: rows * 7 }).map((_, idx) => ...)] *)
Definition calendarCells (days startOffset : Z) : list (option Z) :=
  map (fun idx => calendarCell days startOffset (Z.of_nat idx))
      (seq 0 (Z.to_nat (calendarRows days startOffset * 7))).

(** [Math.min(k, x)] and [Math.max(k, x)] for a literal [k] *)
Definition mathMin (k : Q) (x : JsNum) : JsNum :=
  match x with
  | Fin q => Fin (if Qle_bool k q then k else q)
  | PosInf => Fin k
  | NaN => NaN
  end.

Definition mathMax (k : Q) (x : JsNum) : JsNum :=
  match x with
  | Fin q => Fin (if Qle_bool q k then k else q)
  | PosInf => PosInf
  | NaN => NaN
  end.

(** The width, in percent, of the bar drawn by [ProgressBar]:
    [Math.max(0, Math.min(100, value))] *)
Definition progressWidth (value : JsNum) : JsNum :=
  mathMax 0 (mathMin 100 value).

(** [isCompleted] of a habit card in [TodayView] *)
Definition isCompleted (state : AppState.t) (today : string)
  (habit : Habit.t) : bool :=
  existsb (fun l => (DailyLog.date l =? today)%string
                    && (DailyLog.habitId l =? Habit.id habit)%string
                    && DailyLog.completed l)
          (AppState.dailyLogs state).

(** [totalLogs] of [StatsView] *)
Definition totalLogs (state : AppState.t) : nat :=
  List.length (filter DailyLog.completed (AppState.dailyLogs state)).

(** [count] of a habit in the performance list of [StatsView] *)
Definition habitCount (state : AppState.t) (h : Habit.t) : nat :=
  List.length
    (filter (fun l => (DailyLog.habitId l =? Habit.id h)%string
                      && DailyLog.completed l)
            (AppState.dailyLogs state)).

(** [pct] of a habit: [Math.min(100, (count / max) * 100)] with [max = 30] *)
Definition habitPct (state : AppState.t) (h : Habit.t) : JsNum :=
  mathMin 100 (jsTimes (lengthRatio (habitCount state h) 30) 100).

(** The effect of [App] that copies the hook's [data] into the reducer:
    [dispatch({ type: 'SET_DATA', payload: data })]. *)
Definition syncData : M unit :=
  w <- getApp ;;
  dispatch (SET_DATA (localData (App.hook w))).

(** The logical key of a daily log. *)
Definition logKey (l : DailyLog.t) : string * string :=
  (DailyLog.date l, DailyLog.habitId l).

(** The reducer state and the store hold the same catalog and the same
    records, each key once. *)
Definition inSync (w : App.t) : Prop :=
  AppState.habits (App.state w) = Hook.localHabits (App.hook w)
  /\ NoDup (map logKey (AppState.dailyLogs (App.state w)))
  /\ NoDup (map MoodLog.date (AppState.moodLogs (App.state w)))
  /\ Permutation (AppState.dailyLogs (App.state w))
                 (Hook.localDailyLogs (App.hook w))
  /\ Permutation (AppState.moodLogs (App.state w))
                 (Hook.localMoodLogs (App.hook w)).

(** *** Events

    A handler is created by a render and reads the [state] and the local
    collections of that render.  React renders again after every event,
    and the effect of each render copies the hook's data into the reducer
    ([syncData]), so the next event is handled on the copied state. *)

(** [updateMoodLog] as created by the render of [rendered]: the new array
    is computed from the [localMoodLogs] of that render. *)
Definition updateMoodLogOn (rendered : App.t) (config : Config.t)
  (date : string) (moodScore motivationScore : Z) : M unit :=
  let localMoodLogs := Hook.localMoodLogs (App.hook rendered) in
  let existingIndex := findIndex (sameDate date) localMoodLogs in
  let newLogs :=
    if (0 <=? existingIndex)%Z
    then arraySet localMoodLogs (Z.to_nat existingIndex)
                  (MoodLog.mk date moodScore motivationScore)
    else localMoodLogs ++ [MoodLog.mk date moodScore motivationScore] in
  setLocalMoodLogs newLogs ;;
  if hasConfig config then
    setIsSyncing true ;;
    emit (Sleep 500) ;;
    setIsSyncing false
  else ret tt.

(** [handleMoodChange] as created by the render of [rendered]: [state] is
    the reducer state of that render, whatever was dispatched since.
    [handleMoodChange] above is the call made on the current render. *)
Definition handleMoodChangeOn (rendered : App.t) (config : Config.t)
  (today : string) (type : MoodKind) (val : Z) : M unit :=
  let new := newMood today (App.state rendered) type val in
  dispatch (UPDATE_MOOD new) ;;
  updateMoodLogOn rendered config today
                  (MoodLog.moodScore new) (MoodLog.motivationScore new).

(** One slider change in the running application: the handler of the
    current render, then the render that follows and its copy of the
    hook's data. *)
Definition moodEvent (config : Config.t) (today : string)
  (type : MoodKind) (val : Z) : M unit :=
  handleMoodChange config today type val ;;
  syncData.

Fixpoint moodEvents (config : Config.t) (today : string)
  (writes : list (MoodKind * Z)) : M unit :=
  match writes with
  | [] => ret tt
  | (type, val) :: rest =>
      moodEvent config today type val ;;
      moodEvents config today rest
  end.







(** *** Writing to local storage *)

(** The content of [window.localStorage]. *)
Definition Storage : Type := string -> option string.

Definition storagePut (storage : Storage) (key text : string) : Storage :=
  fun k => if (k =? key)%string then Some text else storage k.

(** The argument of the setter: a value, or a function of the current
    value ([value instanceof Function]). *)
Inductive NewValue (T : Type) : Type :=
| Plain (v : T)
| Updater (f : T -> T).
Arguments Plain {T} v.
Arguments Updater {T} f.

Section SetValue.
Context {T : Type}.

(** [JSON.stringify], which may throw. *)
Variable JSON_stringify : T -> Completion string.

(** [setValue] of [useLocalStorage]: the new [storedValue] and the new
    content of the storage.  [quotaExceeded] tells whether [setItem]
    throws; the handler only logs, and [setStoredValue] has run by then.
    An updater function is taken to return normally. *)
Definition setValue (key : string) (value : NewValue T) (storedValue : T)
  (storage : Storage) (quotaExceeded : bool) : T * Storage :=
  let valueToStore :=
    match value with
    | Plain v => v
    | Updater f => f storedValue
    end in
  match JSON_stringify valueToStore with
  | Normal text =>
      if quotaExceeded then (valueToStore, storage)
      else (valueToStore, storagePut storage key text)
  | Throw _ => (valueToStore, storage)
  end.

End SetValue.

(** [JSON.stringify] on booleans. *)
Definition stringifyBool (b : bool) : Completion string :=
  Normal (if b then "true" else "false").

Definition emptyStorage : Storage := fun _ => None.

Definition w_fresh : App.t := App.mk s_fresh h_empty.

(** The store with two records under one key, after the first copy of its
    data into the reducer. *)
Definition w_duplicates_synced : App.t :=
  App.mk
    (AppState.mk (Hook.localHabits h_duplicates)
       (Hook.localDailyLogs h_duplicates) (Hook.localMoodLogs h_duplicates)
       View.today 0%Z false false None)
    h_duplicates.

Definition w_one_log : App.t :=
  App.mk
    (AppState.mk [habitA; habitB]
       [ DailyLog.mk "2026-12-30" "A" true; DailyLog.mk "2026-12-31" "A" true ]
       [ MoodLog.mk "2026-12-31" 4 6 ] View.today 0%Z false false None)
    (Hook.mk false false None [habitA; habitB]
       [ DailyLog.mk "2026-12-31" "A" true; DailyLog.mk "2026-12-30" "A" true ]
       [ MoodLog.mk "2026-12-31" 4 6 ]).

(** * Part II: properties *)

(** ** Generic facts about arrays *)

Section ListFacts.
Context {A : Type}.
Variable p : A -> bool.

Lemma filter_negb_none (l : list A) :
  filter p (filter (fun x => negb (p x)) l) = [].
Proof.
  induction l as [|x l IH]; simpl; [reflexivity|].
  destruct (p x) eqn:E; simpl; [exact IH|].
  rewrite E. exact IH.
Qed.

Lemma filter_push_hit (l : list A) (x : A) :
  p x = true ->
  filter p (filter (fun y => negb (p y)) l ++ [x]) = [x].
Proof.
  intros Hx. rewrite filter_app, filter_negb_none. simpl. now rewrite Hx.
Qed.

Lemma find_filter_nil (l : list A) :
  filter p l = [] -> find p l = None.
Proof.
  induction l as [|x l IH]; simpl; [reflexivity|].
  destruct (p x); [discriminate|exact IH].
Qed.

Lemma find_filter_head (l : list A) (x : A) (r : list A) :
  filter p l = x :: r -> find p l = Some x.
Proof.
  induction l as [|y l IH]; simpl; [discriminate|].
  destruct (p y); [intros H; now inversion H|exact IH].
Qed.

Lemma findIndexFrom_range (l : list A) (i : Z) :
  findIndexFrom p l i = (-1)%Z \/
  (i <= findIndexFrom p l i < i + Z.of_nat (List.length l))%Z.
Proof.
  revert i. induction l as [|x l IH]; intros i; simpl; [now left|].
  destruct (p x); [right; lia|].
  destruct (IH (i + 1)%Z) as [H|H]; [now left|right; lia].
Qed.

(** The index [findIndex] returns is [-1] or lies inside the array. *)
Lemma findIndex_in_range (l : list A) :
  (0 <= findIndex p l)%Z ->
  Z.to_nat (findIndex p l) < List.length l.
Proof.
  unfold findIndex. intros H.
  destruct (findIndexFrom_range l 0) as [E|E]; lia.
Qed.

(** Replace-the-first-or-append, seen through the filter on the key: the
    new element takes the place of the first match and later matches stay. *)
Lemma upsert_filter_from (v : A) (l : list A) (i : Z) :
  p v = true ->
  (0 <= i)%Z ->
  filter p
    (if (0 <=? findIndexFrom p l i)%Z
     then arraySet l (Z.to_nat (findIndexFrom p l i - i)) v
     else l ++ [v]) = v :: tl (filter p l).
Proof.
  intros Hv. revert i. induction l as [|x l IH]; intros i Hi; simpl.
  - now rewrite Hv.
  - destruct (p x) eqn:Ex.
    + replace (0 <=? i)%Z with true by (symmetry; apply Z.leb_le; lia).
      rewrite Z.sub_diag. simpl. now rewrite Hv.
    + specialize (IH (i + 1)%Z ltac:(lia)).
      destruct (0 <=? findIndexFrom p l (i + 1))%Z eqn:Ek.
      * apply Z.leb_le in Ek.
        destruct (findIndexFrom_range l (i + 1)) as [E|E]; [lia|].
        replace (Z.to_nat (findIndexFrom p l (i + 1) - i))
          with (S (Z.to_nat (findIndexFrom p l (i + 1) - (i + 1)))) by lia.
        simpl. now rewrite Ex.
      * simpl. now rewrite Ex.
Qed.

Lemma upsert_filter (v : A) (l : list A) :
  p v = true ->
  filter p
    (if (0 <=? findIndex p l)%Z
     then arraySet l (Z.to_nat (findIndex p l)) v
     else l ++ [v]) = v :: tl (filter p l).
Proof.
  intros Hv. unfold findIndex.
  rewrite <- (Z.sub_0_r (findIndexFrom p l 0)) at 2.
  apply upsert_filter_from; [exact Hv | lia].
Qed.

End ListFacts.

Lemma sameKey_refl (date habitId : string) (c : bool) :
  sameKey date habitId (DailyLog.mk date habitId c) = true.
Proof. unfold sameKey; simpl. now rewrite !String.eqb_refl. Qed.

Lemma sameDate_refl (date : string) (a b : Z) :
  sameDate date (MoodLog.mk date a b) = true.
Proof. unfold sameDate; simpl. apply String.eqb_refl. Qed.

(** ** Running handlers *)

Lemma after_bind {A B : Type} (m : M A) (k : A -> M B) (w : App.t) :
  after (bind m k) w = after (k (returned m w)) (after m w).
Proof.
  unfold after, returned, bind.
  destruct (m w) as [[a w1] t1]. simpl.
  now destruct (k a w1) as [[b w2] t2].
Qed.

(** ** The flag actions *)

(** C9. [SET_LOADING], [SET_SYNCING] and [SET_ERROR] write their payload into
    their own flag ([isLoading], [isSyncing], [error] respectively) and leave
    every other field of the state as it was. *)
Theorem flag_actions_frame (s : AppState.t) (b : bool) (e : option string) :
  reducer s (SET_LOADING b) =
    AppState.mk (AppState.habits s) (AppState.dailyLogs s) (AppState.moodLogs s)
                (AppState.currentView s) (AppState.currentMonth s)
                b (AppState.isSyncing s) (AppState.error s)
  /\ reducer s (SET_SYNCING b) =
    AppState.mk (AppState.habits s) (AppState.dailyLogs s) (AppState.moodLogs s)
                (AppState.currentView s) (AppState.currentMonth s)
                (AppState.isLoading s) b (AppState.error s)
  /\ reducer s (SET_ERROR e) =
    AppState.mk (AppState.habits s) (AppState.dailyLogs s) (AppState.moodLogs s)
                (AppState.currentView s) (AppState.currentMonth s)
                (AppState.isLoading s) (AppState.isSyncing s) e.
Proof. destruct s; repeat split. Qed.

(** ** Toggling a habit *)

Lemma toggle_logsFor (s : AppState.t) (date habitId : string) :
  logsFor date habitId (AppState.dailyLogs (reducer s (TOGGLE_HABIT date habitId))) =
    [DailyLog.mk date habitId
       match find (sameKey date habitId) (AppState.dailyLogs s) with
       | Some l => negb (DailyLog.completed l)
       | None => true
       end].
Proof.
  destruct s; unfold logsFor; simpl.
  apply filter_push_hit, sameKey_refl.
Qed.

Lemma dispatchAll_snoc (s : AppState.t) (acts : list Action) (a : Action) :
  dispatchAll s (acts ++ [a]) = reducer (dispatchAll s acts) a.
Proof. unfold dispatchAll. now rewrite fold_left_app. Qed.

Lemma toggles_succ (date habitId : string) (n : nat) :
  toggles date habitId (S n) = toggles date habitId n ++ [TOGGLE_HABIT date habitId].
Proof.
  unfold toggles. induction n as [|n IH]; simpl; [reflexivity|].
  simpl in IH. now rewrite IH at 1.
Qed.

(** C1. Starting from a state that holds no record for [(date, habitId)],
    any run of [n >= 1] toggles of that pair leaves exactly one record with
    that key, and its [completed] field is the parity of [n]: [true] for
    odd [n] (so after the first toggle), [false] for even [n]. *)
Theorem toggle_parity (s : AppState.t) (date habitId : string) (n : nat) :
  logsFor date habitId (AppState.dailyLogs s) = [] ->
  0 < n ->
  logsFor date habitId
    (AppState.dailyLogs (dispatchAll s (toggles date habitId n))) =
    [DailyLog.mk date habitId (Nat.odd n)].
Proof.
  intros Hnone Hn. destruct n as [|n]; [lia|clear Hn].
  induction n as [|n IH].
  - simpl. rewrite toggle_logsFor.
    unfold logsFor in Hnone. now rewrite (find_filter_nil _ _ Hnone).
  - rewrite toggles_succ, dispatchAll_snoc, toggle_logsFor.
    unfold logsFor in IH. rewrite (find_filter_head _ _ _ _ IH). simpl.
    f_equal. f_equal. rewrite (Nat.odd_succ (S n)), <- Nat.negb_odd.
    reflexivity.
Qed.

Lemma toggle_parity_witness :
  logsFor "2026-12-31" "A"
    (AppState.dailyLogs (dispatchAll s_fresh (toggles "2026-12-31" "A" 3))) =
    [DailyLog.mk "2026-12-31" "A" true].
Proof.
  apply (toggle_parity s_fresh "2026-12-31" "A" 3); [reflexivity | lia].
Defined.

(** ** One record per key *)

Lemma update_mood_moodsFor (s : AppState.t) (m : MoodLog.t) :
  moodsFor (MoodLog.date m) (AppState.moodLogs (reducer s (UPDATE_MOOD m))) = [m].
Proof.
  destruct s; unfold moodsFor; simpl.
  apply filter_push_hit. unfold sameDate. apply String.eqb_refl.
Qed.

Lemma updateDailyLog_logs (config : Config.t) (w : App.t)
  (date habitId : string) (completed : bool) :
  Hook.localDailyLogs (App.hook (after (updateDailyLog config date habitId completed) w)) =
    let logs := Hook.localDailyLogs (App.hook w) in
    if (0 <=? findIndex (sameKey date habitId) logs)%Z
    then arraySet logs (Z.to_nat (findIndex (sameKey date habitId) logs))
                  (DailyLog.mk date habitId completed)
    else logs ++ [DailyLog.mk date habitId completed].
Proof.
  unfold updateDailyLog, after, bind, getApp. simpl.
  destruct (hasConfig config); reflexivity.
Qed.

Lemma updateMoodLog_logs (config : Config.t) (w : App.t)
  (date : string) (moodScore motivationScore : Z) :
  Hook.localMoodLogs (App.hook (after (updateMoodLog config date moodScore motivationScore) w)) =
    let logs := Hook.localMoodLogs (App.hook w) in
    if (0 <=? findIndex (sameDate date) logs)%Z
    then arraySet logs (Z.to_nat (findIndex (sameDate date) logs))
                  (MoodLog.mk date moodScore motivationScore)
    else logs ++ [MoodLog.mk date moodScore motivationScore].
Proof.
  unfold updateMoodLog, after, bind, getApp. simpl.
  destruct (hasConfig config); reflexivity.
Qed.

(** C2, as the code has it.  The two reducer actions filter and push: after
    [TOGGLE_HABIT] or [UPDATE_MOOD] the collection holds exactly one record
    for the key, however many it held before.  The two store upserts
    replace the first record found for the key in place, or append when
    there is none: the new record takes the place of the first one and any
    further records for the key stay, so the store ends with exactly one
    record for the key when it held at most one. *)
Theorem log_mutations_per_key :
  (forall s date habitId,
      List.length (logsFor date habitId
        (AppState.dailyLogs (reducer s (TOGGLE_HABIT date habitId)))) = 1)
  /\ (forall s m,
      moodsFor (MoodLog.date m)
        (AppState.moodLogs (reducer s (UPDATE_MOOD m))) = [m])
  /\ (forall config w date habitId completed,
      logsFor date habitId
        (Hook.localDailyLogs
           (App.hook (after (updateDailyLog config date habitId completed) w))) =
      DailyLog.mk date habitId completed
        :: tl (logsFor date habitId (Hook.localDailyLogs (App.hook w))))
  /\ (forall config w date moodScore motivationScore,
      moodsFor date
        (Hook.localMoodLogs
           (App.hook (after (updateMoodLog config date moodScore motivationScore) w))) =
      MoodLog.mk date moodScore motivationScore
        :: tl (moodsFor date (Hook.localMoodLogs (App.hook w)))).
Proof.
  repeat split.
  - intros. now rewrite toggle_logsFor.
  - intros. apply update_mood_moodsFor.
  - intros. rewrite updateDailyLog_logs. unfold logsFor. cbv zeta.
    apply upsert_filter, sameKey_refl.
  - intros. rewrite updateMoodLog_logs. unfold moodsFor. cbv zeta.
    apply upsert_filter, sameDate_refl.
Qed.

(** C2 as stated fails for the store upserts: on a store that already holds
    two records for a key, [updateDailyLog] and [updateMoodLog] leave two. *)
Lemma upserts_keep_duplicates :
  logsFor "2026-12-31" "A"
    (Hook.localDailyLogs
       (App.hook (after (updateDailyLog cfg_none "2026-12-31" "A" true) w_duplicates))) =
    [DailyLog.mk "2026-12-31" "A" true; DailyLog.mk "2026-12-31" "A" false]
  /\ moodsFor "2026-12-31"
    (Hook.localMoodLogs
       (App.hook (after (updateMoodLog cfg_none "2026-12-31" 9 9) w_duplicates))) =
    [MoodLog.mk "2026-12-31" 9 9; MoodLog.mk "2026-12-31" 6 7].
Proof. split; reflexivity. Qed.

(** ** Mood writes *)

Lemma currentMood_date (today : string) (s : AppState.t) :
  MoodLog.date (currentMood today s) = today.
Proof.
  unfold currentMood.
  destruct (find (sameDate today) (AppState.moodLogs s)) as [l|] eqn:E;
    [|reflexivity].
  apply find_some in E. destruct E as [_ E].
  now apply String.eqb_eq in E.
Qed.

Lemma newMood_date (today : string) (s : AppState.t) (type : MoodKind) (val : Z) :
  MoodLog.date (newMood today s type val) = today.
Proof. unfold newMood. destruct type; simpl; apply currentMood_date. Qed.

Lemma newMood_eq (today : string) (s : AppState.t) (type : MoodKind) (val : Z) :
  newMood today s type val =
    MoodLog.mk today
      (lastWritten mood [(type, val)] (MoodLog.moodScore (currentMood today s)))
      (lastWritten motivation [(type, val)]
         (MoodLog.motivationScore (currentMood today s))).
Proof. unfold newMood. rewrite currentMood_date. now destruct type. Qed.

Lemma handleMoodChange_state (config : Config.t) (today : string)
  (type : MoodKind) (val : Z) (w : App.t) :
  App.state (after (handleMoodChange config today type val) w) =
    reducer (App.state w) (UPDATE_MOOD (newMood today (App.state w) type val)).
Proof.
  unfold handleMoodChange, updateMoodLog, after, bind, getApp, dispatch. simpl.
  destruct (hasConfig config); reflexivity.
Qed.

(** One slider change: the state then holds the new record, and only it,
    for today. *)
Lemma handleMoodChange_moodsFor (config : Config.t) (today : string)
  (type : MoodKind) (val : Z) (w : App.t) :
  moodsFor today
    (AppState.moodLogs (App.state (after (handleMoodChange config today type val) w))) =
    [newMood today (App.state w) type val].
Proof.
  rewrite handleMoodChange_state.
  rewrite <- (newMood_date today (App.state w) type val) at 1.
  apply update_mood_moodsFor.
Qed.

Lemma handleMoodChange_current (config : Config.t) (today : string)
  (type : MoodKind) (val : Z) (w : App.t) :
  currentMood today (App.state (after (handleMoodChange config today type val) w)) =
    newMood today (App.state w) type val.
Proof.
  unfold currentMood.
  now rewrite (find_filter_head _ _ _ _
                 (handleMoodChange_moodsFor config today type val w)).
Qed.

(** ** Ratios of lengths *)

Lemma Qle_bool_spec (a b : Q) :
  BoolSpec (a <= b)%Q (b < a)%Q (Qle_bool a b).
Proof.
  destruct (Qle_bool a b) eqn:E; constructor.
  - now apply Qle_bool_iff.
  - apply Qnot_le_lt. intros H. apply Qle_bool_iff in H. congruence.
Qed.

Lemma Zpos_of_nat (m : nat) : 0 < m -> Z.pos (Pos.of_nat m) = Z.of_nat m.
Proof.
  destruct m as [|m]; [lia|intros _].
  rewrite <- Pos.of_nat_succ, Zpos_P_of_succ_nat. lia.
Qed.

Lemma ratio_ge_1 (n m : nat) :
  0 < m -> (jsGe (lengthRatio n m) 1 = true <-> m <= n).
Proof.
  intros Hm. destruct m as [|m]; [lia|]. unfold lengthRatio, jsGe.
  rewrite Qle_bool_iff. unfold Qle. cbn [Qnum Qden].
  rewrite Zpos_of_nat by lia. lia.
Qed.

Lemma percent_nonneg (n m : nat) :
  0 < m -> (0 <= (Z.of_nat n # Pos.of_nat m) * 100)%Q.
Proof.
  intros Hm. unfold Qle, Qmult. cbn [Qnum Qden]. lia.
Qed.

Lemma percent_le_100 (n m : nat) :
  0 < m -> ((Z.of_nat n # Pos.of_nat m) * 100 <= 100)%Q <-> n <= m.
Proof.
  intros Hm. unfold Qle, Qmult. cbn [Qnum Qden].
  rewrite Pos.mul_1_r, Zpos_of_nat by lia. lia.
Qed.

(** ** Completion rate *)


(** C5, as the code has it.  The rate of a date is the number of completed
    records of that date divided by the number of habits, times 100; it is
    0, an ordinary number, when the catalog is empty; the Today and
    Calendar views compute the same value; it is never negative; and it is
    at most 100 exactly when the catalog is empty or the date has no more
    completed records than there are habits. *)
Theorem completion_rate_value (s : AppState.t) (date : string) :
  completionRate s date =
    Fin (if List.length (AppState.habits s) =? 0 then 0
         else (Z.of_nat (List.length (filter (completedOn date) (AppState.dailyLogs s)))
                 # Pos.of_nat (List.length (AppState.habits s))) * 100)
  /\ getDayData s date = completionRate s date
  /\ (AppState.habits s = [] -> completionRate s date = Fin 0)
  /\ exists q,
      completionRate s date = Fin q
      /\ (0 <= q)%Q
      /\ ((q <= 100)%Q <->
          AppState.habits s = [] \/
          List.length (filter (completedOn date) (AppState.dailyLogs s))
            <= List.length (AppState.habits s)).
Proof.
  unfold completionRate, getDayData.
  set (n := List.length (filter (completedOn date) (AppState.dailyLogs s))).
  destruct (AppState.habits s) as [|h hs] eqn:Eh.
  - simpl. do 3 (split; [reflexivity|]).
    exists 0%Q. split; [reflexivity|]. split; [lra|].
    split; [now left|intros _; lra].
  - set (m := List.length (h :: hs)).
    assert (Hm : 0 < m) by (unfold m; simpl; lia).
    replace (m =? 0) with false by (symmetry; apply Nat.eqb_neq; lia).
    replace (0 <? m) with true by (symmetry; apply Nat.ltb_lt; lia).
    assert (Hr : jsTimes (lengthRatio n m) 100 =
                 Fin ((Z.of_nat n # Pos.of_nat m) * 100)).
    { unfold m. reflexivity. }
    rewrite Hr. do 2 (split; [reflexivity|]). split; [discriminate|].
    exists ((Z.of_nat n # Pos.of_nat m) * 100)%Q. split; [reflexivity|].
    split; [now apply percent_nonneg|].
    rewrite (percent_le_100 n m Hm). split; [now right|].
    intros [H|H]; [discriminate|exact H].
Qed.

Lemma completion_rate_value_witness :
  completionRate s_fresh "2026-12-31" = Fin 0.
Proof.
  apply (proj1 (proj2 (proj2 (completion_rate_value s_fresh "2026-12-31")))).
  reflexivity.
Defined.

(** C5 as stated fails on the bound: with one habit in the catalog and two
    completed records for the day the rate is 200. *)
Lemma rate_above_100 :
  completionRate s_surplus "2026-12-31" = Fin 200
  /\ getDayData s_surplus "2026-12-31" = Fin 200
  /\ ~ (200 <= 100)%Q.
Proof. repeat split. intros H. now apply Qle_bool_iff in H. Qed.

(** ** Calendar cells *)

(** C6. The tier of a calendar cell is a function of the day's rate alone,
    with the bands: at least 80 is full, from 40 up to 80 is partial-high,
    above 0 and below 40 is partial-low, 0 is empty; so 85 is full, 50 is
    partial-high, 10 is partial-low and 0 is empty.  Each tier stands for
    one pair of colours, and equal rates get equal tiers. *)
Theorem cell_tier_bands :
  (forall q : Q,
      ((80 <= q)%Q -> cellTier (Fin q) = Tier.full)
      /\ ((40 <= q)%Q -> (q < 80)%Q -> cellTier (Fin q) = Tier.partial_high)
      /\ ((0 < q)%Q -> (q < 40)%Q -> cellTier (Fin q) = Tier.partial_low)
      /\ ((q == 0)%Q -> cellTier (Fin q) = Tier.empty))
  /\ (cellTier (Fin 85) = Tier.full
      /\ cellTier (Fin 50) = Tier.partial_high
      /\ cellTier (Fin 10) = Tier.partial_low
      /\ cellTier (Fin 0) = Tier.empty)
  /\ (forall q1 q2 : Q, (q1 == q2)%Q -> cellTier (Fin q1) = cellTier (Fin q2))
  /\ (forall rate : JsNum,
      cellColors rate =
        match cellTier rate with
        | Tier.full => (success, white)
        | Tier.partial_high => (warning, white)
        | Tier.partial_low => (textTertiary, white)
        | Tier.empty => (bgTertiary, textSecondary)
        end).
Proof.
  assert (bands : forall q : Q,
      ((80 <= q)%Q -> cellTier (Fin q) = Tier.full)
      /\ ((40 <= q)%Q -> (q < 80)%Q -> cellTier (Fin q) = Tier.partial_high)
      /\ ((0 < q)%Q -> (q < 40)%Q -> cellTier (Fin q) = Tier.partial_low)
      /\ ((q == 0)%Q -> cellTier (Fin q) = Tier.empty)).
  { intros q. unfold cellTier, cellColors, jsGe, jsGt.
    destruct (Qle_bool_spec 80 q), (Qle_bool_spec 40 q), (Qle_bool_spec q 0);
      simpl; repeat split; intros; try reflexivity; exfalso; lra. }
  split; [exact bands|]. split; [repeat split|]. split.
  - intros q1 q2 E.
    unfold cellTier, cellColors, jsGe, jsGt.
    destruct (Qle_bool_spec 80 q1), (Qle_bool_spec 40 q1), (Qle_bool_spec q1 0),
             (Qle_bool_spec 80 q2), (Qle_bool_spec 40 q2), (Qle_bool_spec q2 0);
      simpl; try reflexivity; exfalso; lra.
  - intros rate. unfold cellTier, cellColors.
    destruct (jsGe rate 80); [reflexivity|].
    destruct (jsGe rate 40); [reflexivity|].
    destruct (jsGt rate 0); reflexivity.
Qed.

Lemma cell_tier_bands_witness :
  cellTier (Fin 85) = Tier.full
  /\ cellTier (Fin 50) = Tier.partial_high
  /\ cellTier (Fin 10) = Tier.partial_low
  /\ cellTier (Fin 0) = Tier.empty.
Proof.
  split; [|split; [|split]].
  - apply (proj1 (proj1 cell_tier_bands 85%Q)). discriminate.
  - apply (proj1 (proj2 (proj1 cell_tier_bands 50%Q))); [discriminate|reflexivity].
  - apply (proj1 (proj2 (proj2 (proj1 cell_tier_bands 10%Q)))); reflexivity.
  - apply (proj2 (proj2 (proj2 (proj1 cell_tier_bands 0%Q)))). reflexivity.
Defined.

(** ** Current streak *)

Section StreakFacts.
Variable isoDaysAgo : nat -> string.
Variable s : AppState.t.

Lemma streakLoop_le (remaining : nat) :
  forall i streak,
    streakLoop isoDaysAgo s remaining i streak <= streak + remaining.
Proof.
  induction remaining as [|r IH]; intros i streak; simpl; [lia|].
  destruct (jsGe (dayRate isoDaysAgo s i) 1).
  - specialize (IH (S i) (S streak)). lia.
  - destruct (0 <? i); [lia|]. specialize (IH (S i) streak). lia.
Qed.

(** From a day after today, the loop counts the [d] full days in front of
    it and stops at the first day that is not full, or at the bound. *)
Lemma streakLoop_run (d : nat) :
  forall remaining i streak,
    0 < i ->
    d <= remaining ->
    (forall j, i <= j < i + d -> jsGe (dayRate isoDaysAgo s j) 1 = true) ->
    (d < remaining -> jsGe (dayRate isoDaysAgo s (i + d)) 1 = false) ->
    streakLoop isoDaysAgo s remaining i streak = streak + d.
Proof.
  induction d as [|d IH]; intros remaining i streak Hi Hd Hfull Hstop.
  - destruct remaining as [|r]; simpl; [lia|].
    rewrite Nat.add_0_r in Hstop. rewrite Hstop by lia.
    replace (0 <? i) with true by (symmetry; apply Nat.ltb_lt; lia). lia.
  - destruct remaining as [|r]; [lia|]. simpl.
    rewrite Hfull by lia.
    rewrite (IH r (S i) (S streak)); try lia.
    + intros j Hj. apply Hfull. lia.
    + intros Hr. replace (S i + d) with (i + S d) by lia. apply Hstop. lia.
Qed.

(** The first iteration: today is counted or passed over, never a stop. *)
Lemma streakLoop_today (remaining : nat) :
  streakLoop isoDaysAgo s (S remaining) 0 0 =
    if jsGe (dayRate isoDaysAgo s 0) 1
    then streakLoop isoDaysAgo s remaining 1 1
    else streakLoop isoDaysAgo s remaining 1 0.
Proof. reflexivity. Qed.

End StreakFacts.

Lemma streakLoop_ext (iso iso' : nat -> string) (s : AppState.t)
  (remaining : nat) :
  forall i streak,
    (forall j, i <= j < i + remaining -> iso j = iso' j) ->
    streakLoop iso s remaining i streak = streakLoop iso' s remaining i streak.
Proof.
  induction remaining as [|r IH]; intros i streak H; [reflexivity|].
  assert (E : dayRate iso s i = dayRate iso' s i).
  { unfold dayRate. now rewrite (H i) by lia. }
  cbn [streakLoop]. rewrite E.
  rewrite (IH (S i) (S streak)), (IH (S i) streak);
    [reflexivity| |]; intros j Hj; apply H; lia.
Qed.

Lemma day_full_iff (iso : nat -> string) (s : AppState.t) (i : nat) :
  jsGe (dayRate iso s i) 1 = true <->
  0 < List.length (AppState.habits s)
  /\ List.length (AppState.habits s)
     <= List.length (filter (completedOn (iso i)) (AppState.dailyLogs s)).
Proof.
  unfold dayRate.
  destruct (0 <? List.length (AppState.habits s)) eqn:E.
  - apply Nat.ltb_lt in E. rewrite (ratio_ge_1 _ _ E). tauto.
  - apply Nat.ltb_ge in E. simpl. split; [discriminate|lia].
Qed.

Lemma day_full_percent (iso : nat -> string) (s : AppState.t) (i : nat) :
  jsGe (dayRate iso s i) 1 = jsGe (getDayData s (iso i)) 100.
Proof.
  unfold dayRate, getDayData.
  destruct (0 <? List.length (AppState.habits s)); [|reflexivity].
  destruct (lengthRatio _ _) as [q| |]; simpl; try reflexivity.
  destruct (Qle_bool_spec 1 q), (Qle_bool_spec 100 (q * 100));
    try reflexivity; exfalso; lra.
Qed.

(** C4, as the code has it.  The streak loop looks at the days 0 to 364
    before today and at no other.  A day is counted exactly when it has
    habits and at least as many completed records as habits, that is when
    its completion rate is at least 100%.  The walk stops at the first day
    after today that is not counted; today is never a stop.  So when the
    days 1 to [k - 1] are counted and day [k] is not (or [k] is the bound
    365), the streak is [k - 1], plus one when today is counted.  With
    habits A and B both done today and yesterday and only A the day before,
    the streak is 2. *)
Theorem streak_walk :
  (forall (iso : nat -> string) (s : AppState.t) (k : nat),
      1 <= k <= 365 ->
      (forall j, 1 <= j < k -> jsGe (dayRate iso s j) 1 = true) ->
      (k < 365 -> jsGe (dayRate iso s k) 1 = false) ->
      currentStreak iso s =
        (k - 1) + (if jsGe (dayRate iso s 0) 1 then 1 else 0))
  /\ (forall (iso : nat -> string) (s : AppState.t) (i : nat),
      (jsGe (dayRate iso s i) 1 = true <->
       0 < List.length (AppState.habits s)
       /\ List.length (AppState.habits s)
          <= List.length (filter (completedOn (iso i)) (AppState.dailyLogs s)))
      /\ jsGe (dayRate iso s i) 1 = jsGe (getDayData s (iso i)) 100)
  /\ (forall (iso iso' : nat -> string) (s : AppState.t),
      (forall i, i < 365 -> iso i = iso' i) ->
      currentStreak iso s = currentStreak iso' s)
  /\ (forall (iso : nat -> string) (s : AppState.t), currentStreak iso s <= 365)
  /\ currentStreak daysBefore_2026_12_31 s_scenario = 2.
Proof.
  split; [|split; [|split; [|split]]].
  - intros iso s k Hk Hfull Hstop. unfold currentStreak.
    rewrite (streakLoop_today iso s 364).
    destruct (jsGe (dayRate iso s 0) 1);
      rewrite (streakLoop_run iso s (k - 1)); try lia.
    + intros j Hj. apply Hfull. lia.
    + intros Hlt. replace (1 + (k - 1)) with k by lia. apply Hstop. lia.
    + intros j Hj. apply Hfull. lia.
    + intros Hlt. replace (1 + (k - 1)) with k by lia. apply Hstop. lia.
  - intros iso s i. split; [apply day_full_iff|apply day_full_percent].
  - intros iso iso' s H. unfold currentStreak.
    apply streakLoop_ext. intros j Hj. apply H. lia.
  - intros iso s. unfold currentStreak.
    apply (streakLoop_le iso s 365 0 0).
  - vm_compute. reflexivity.
Qed.

Lemma streak_walk_witness :
  currentStreak daysBefore_2026_12_31 s_scenario =
    (2 - 1) + (if jsGe (dayRate daysBefore_2026_12_31 s_scenario 0) 1
               then 1 else 0).
Proof.
  apply (proj1 streak_walk daysBefore_2026_12_31 s_scenario 2).
  - lia.
  - intros j Hj. assert (j = 1) by lia. subst j. reflexivity.
  - intros _. reflexivity.
Defined.

(** C4 as stated fails on "exactly 100%": with one habit in the catalog and
    two completed records today, today's rate is 200% (the ratio is 2, not
    1), yesterday's is 0, and the streak still counts today. *)
Lemma streak_counts_surplus_day :
  dayRate daysBefore_2026_12_31 s_surplus 0 = Fin 2
  /\ getDayData s_surplus (daysBefore_2026_12_31 0) = Fin 200
  /\ ~ (2 == 1)%Q
  /\ dayRate daysBefore_2026_12_31 s_surplus 1 = Fin 0
  /\ currentStreak daysBefore_2026_12_31 s_surplus = 1.
Proof.
  split; [reflexivity|]. split; [reflexivity|]. split; [discriminate|].
  split; [reflexivity|]. vm_compute. reflexivity.
Qed.

(** A day in progress: today is at 50%, yesterday was full and the day
    before empty.  Today does not end the walk and is not counted. *)
Example streak_today_in_progress :
  currentStreak daysBefore_2026_12_31 s_in_progress = 1.
Proof. vm_compute. reflexivity. Qed.

(** ** Configuration and fetching *)

Lemma truthy_iff (t : string) : truthy t = true <-> t <> EmptyString.
Proof.
  unfold truthy. rewrite negb_true_iff. apply String.eqb_neq.
Qed.

Lemma hasConfig_iff (config : Config.t) :
  hasConfig config = true <->
  Config.spreadsheetId config <> EmptyString /\ Config.apiKey config <> EmptyString.
Proof.
  unfold hasConfig. rewrite andb_true_iff, !truthy_iff. tauto.
Qed.

(** C7. The hook counts as configured exactly when the spreadsheet id and
    the API key are both non-empty; and when either is empty, [fetchData]
    returns the three local collections as they are, and all it does
    besides setting flags is to arm the 500 ms timer that clears
    [isLoading]: no request is made. *)
Theorem unconfigured_fetch_is_local (config : Config.t) (awaited : Settled)
  (w : App.t) :
  (hasConfig config = true <->
   Config.spreadsheetId config <> EmptyString /\ Config.apiKey config <> EmptyString)
  /\ (Config.spreadsheetId config = EmptyString \/ Config.apiKey config = EmptyString ->
      hasConfig config = false
      /\ returned (fetchData config awaited) w =
           Data.mk (Hook.localHabits (App.hook w))
                   (Hook.localDailyLogs (App.hook w))
                   (Hook.localMoodLogs (App.hook w))
      /\ trace (fetchData config awaited) w =
           [SetTimeout (CbSetIsLoading false) 500]
      /\ existsb isFetch (trace (fetchData config awaited) w) = false).
Proof.
  split; [apply hasConfig_iff|].
  intros Hempty.
  assert (Hc : hasConfig config = false).
  { destruct (hasConfig config) eqn:E; [|reflexivity].
    apply hasConfig_iff in E. destruct E, Hempty; congruence. }
  split; [exact Hc|].
  unfold returned, trace, fetchData, bind. simpl. rewrite Hc. simpl.
  repeat split.
Qed.

Lemma unconfigured_fetch_is_local_witness :
  returned (fetchData cfg_no_key Resolved) w_duplicates =
    Data.mk (Hook.localHabits h_duplicates)
            (Hook.localDailyLogs h_duplicates)
            (Hook.localMoodLogs h_duplicates)
  /\ existsb isFetch (trace (fetchData cfg_no_key Resolved) w_duplicates) = false.
Proof.
  destruct (proj2 (unconfigured_fetch_is_local cfg_no_key Resolved w_duplicates)
              (or_intror eq_refl)) as [_ [Hr [_ Hf]]].
  split; [exact Hr|exact Hf].
Defined.

(** C10. What [fetchData] returns does not depend on the configuration (nor
    on how the awaited timer settles): it is always the three local
    collections.  The run leaves those collections and the reducer state
    as they were and never makes a request; the configuration shows only
    in the flags and the timers. *)
Theorem fetchData_ignores_config (config config' : Config.t)
  (awaited awaited' : Settled) (w : App.t) :
  returned (fetchData config awaited) w = returned (fetchData config' awaited') w
  /\ returned (fetchData config awaited) w = localData (App.hook w)
  /\ localData (App.hook (after (fetchData config awaited) w)) =
       localData (App.hook w)
  /\ App.state (after (fetchData config awaited) w) = App.state w
  /\ existsb isFetch (trace (fetchData config awaited) w) = false.
Proof.
  unfold returned, after, trace, fetchData, bind. simpl.
  destruct (hasConfig config), (hasConfig config'), awaited, awaited';
    simpl; repeat split.
Qed.

(** ** Loading from local storage *)

(** C8. Provided [JSON.parse] rejects the empty text, as it does, the
    initial value read by [useLocalStorage] is always a value, never an
    exception: the parsed stored value when the key holds text that parses,
    and the given default when the key is absent, when its text does not
    parse, and when the storage itself cannot be read. *)
Theorem load_falls_back (T : Type)
  (getItem : string -> Completion (option string))
  (JSON_parse : string -> Completion T)
  (key : string) (initialValue : T) :
  (exists e, JSON_parse EmptyString = Throw e) ->
  (exists v, useLocalStorage_initializer getItem JSON_parse key initialValue =
             Normal v)
  /\ (getItem key = Normal None ->
      useLocalStorage_initializer getItem JSON_parse key initialValue =
        Normal initialValue)
  /\ (forall text e,
      getItem key = Normal (Some text) -> JSON_parse text = Throw e ->
      useLocalStorage_initializer getItem JSON_parse key initialValue =
        Normal initialValue)
  /\ (forall text v,
      getItem key = Normal (Some text) -> JSON_parse text = Normal v ->
      useLocalStorage_initializer getItem JSON_parse key initialValue =
        Normal v)
  /\ (forall e,
      getItem key = Throw e ->
      useLocalStorage_initializer getItem JSON_parse key initialValue =
        Normal initialValue).
Proof.
  intros [e0 He0]. unfold useLocalStorage_initializer, tryCatch, andThen.
  split; [|split; [|split; [|split]]].
  - destruct (getItem key) as [[text|]|e]; try (now eexists).
    destruct (truthy text); [|now eexists].
    destruct (JSON_parse text); now eexists.
  - intros ->. reflexivity.
  - intros text e -> Hp. rewrite Hp. now destruct (truthy text).
  - intros text v -> Hp.
    destruct (truthy text) eqn:Et; [now rewrite Hp|].
    unfold truthy in Et. apply negb_false_iff, String.eqb_eq in Et.
    subst text. congruence.
  - intros e ->. reflexivity.
Qed.

Lemma load_falls_back_witness :
  useLocalStorage_initializer sampleStorage parseBool "ht_config" false =
    Normal false
  /\ useLocalStorage_initializer sampleStorage parseBool "flag" false =
    Normal true.
Proof.
  split.
  - apply (proj1 (proj2 (proj2
      (load_falls_back bool sampleStorage parseBool "ht_config" false
         (ex_intro _ "SyntaxError" eq_refl))))
      "{spreadsheetId:" "SyntaxError"); reflexivity.
  - apply (proj1 (proj2 (proj2 (proj2
      (load_falls_back bool sampleStorage parseBool "flag" false
         (ex_intro _ "SyntaxError" eq_refl)))))
      "true" true); reflexivity.
Defined.

(** * Part III: further properties of the code *)

(** ** More facts about arrays *)

Section MoreListFacts.
Context {A : Type}.

Lemma filter_filter_implies (p q : A -> bool) (l : list A) :
  (forall x, p x = true -> q x = true) ->
  filter p (filter q l) = filter p l.
Proof.
  intros H. induction l as [|x l IH]; simpl; [reflexivity|].
  destruct (q x) eqn:Eq; simpl.
  - now rewrite IH.
  - destruct (p x) eqn:Ep; [|exact IH].
    apply H in Ep. congruence.
Qed.

Lemma filter_none_negb (p : A -> bool) (l : list A) :
  filter p l = [] -> filter (fun x => negb (p x)) l = l.
Proof.
  induction l as [|x l IH]; simpl; [reflexivity|].
  destruct (p x); [discriminate|]. simpl. intros H. now rewrite IH.
Qed.

Lemma length_filter_split (p q : A -> bool) (l : list A) :
  List.length (filter p l) =
    List.length (filter p (filter q l))
    + List.length (filter p (filter (fun x => negb (q x)) l)).
Proof.
  induction l as [|x l IH]; simpl; [reflexivity|].
  destruct (q x), (p x) eqn:Ep; simpl; rewrite ?Ep; simpl; lia.
Qed.

Lemma NoDup_map_filter {B : Type} (f : A -> B) (q : A -> bool) (l : list A) :
  NoDup (map f l) -> NoDup (map f (filter q l)).
Proof.
  induction l as [|x l IH]; simpl; [trivial|].
  intros H. inversion H as [|k ks Hx Hr]; subst.
  destruct (q x); [|now apply IH]. simpl. constructor; [|now apply IH].
  intros Hin. apply Hx. apply in_map_iff in Hin.
  destruct Hin as [y [Hy Hyl]]. apply filter_In in Hyl.
  apply in_map_iff. exists y. tauto.
Qed.

Lemma NoDup_snoc (l : list A) (x : A) :
  NoDup l -> ~ In x l -> NoDup (l ++ [x]).
Proof.
  intros Hl Hx. apply (Permutation_NoDup (Permutation_cons_append l x)).
  now constructor.
Qed.

Lemma Permutation_filter (p : A -> bool) (l l' : list A) :
  Permutation l l' -> Permutation (filter p l) (filter p l').
Proof.
  induction 1 as [|x l l' H IH|x y l|l l' l'' H1 IH1 H2 IH2]; simpl.
  - constructor.
  - destruct (p x); [now constructor|exact IH].
  - destruct (p x), (p y); try apply Permutation_refl.
    apply perm_swap.
  - now transitivity (filter p l').
Qed.

(** What replace-the-first-or-append does to an array: either nothing
    satisfies [p] and the element is appended, or the first element that
    does is replaced where it stands. *)
Lemma upsert_shape_from (p : A -> bool) (v : A) (l : list A) (i : Z) :
  (filter p l = [] /\ findIndexFrom p l i = (-1)%Z)
  \/ exists l1 x l2,
      l = l1 ++ x :: l2 /\ p x = true /\ filter p l1 = []
      /\ findIndexFrom p l i = (i + Z.of_nat (List.length l1))%Z
      /\ arraySet l (List.length l1) v = l1 ++ v :: l2.
Proof.
  revert i. induction l as [|y l IH]; intros i; simpl; [now left|].
  destruct (p y) eqn:Ey.
  - right. exists [], y, l. simpl. repeat split; [exact Ey|lia].
  - destruct (IH (i + 1)%Z) as [[Hn Hi]|[l1 [x [l2 [Hl [Hx [Hn [Hi Hs]]]]]]]].
    + now left.
    + right. exists (y :: l1), x, l2. simpl. rewrite Ey.
      repeat split; try assumption; try congruence. lia.
Qed.

Lemma upsert_shape (p : A -> bool) (v : A) (l : list A) :
  let result :=
    if (0 <=? findIndex p l)%Z
    then arraySet l (Z.to_nat (findIndex p l)) v
    else l ++ [v] in
  (filter p l = [] /\ result = l ++ [v])
  \/ exists l1 x l2,
      l = l1 ++ x :: l2 /\ p x = true /\ filter p l1 = []
      /\ result = l1 ++ v :: l2.
Proof.
  cbv zeta. unfold findIndex.
  destruct (upsert_shape_from p v l 0) as [[Hn Hi]|[l1 [x [l2 [Hl [Hx [Hn [Hi Hs]]]]]]]].
  - left. now rewrite Hi.
  - right. exists l1, x, l2. rewrite Hi.
    replace (0 <=? 0 + Z.of_nat (List.length l1))%Z with true
      by (symmetry; apply Z.leb_le; lia).
    replace (Z.to_nat (0 + Z.of_nat (List.length l1))) with (List.length l1)
      by lia.
    tauto.
Qed.

End MoreListFacts.

Lemma sameKey_iff (date habitId : string) (l : DailyLog.t) :
  sameKey date habitId l = true <-> logKey l = (date, habitId).
Proof.
  unfold sameKey, logKey. rewrite andb_true_iff, !String.eqb_eq.
  split; [intros [-> ->]; reflexivity|intros H; now inversion H].
Qed.

Lemma sameDate_iff (date : string) (l : MoodLog.t) :
  sameDate date l = true <-> MoodLog.date l = date.
Proof. unfold sameDate. apply String.eqb_eq. Qed.

Lemma sameKey_other (date habitId date' habitId' : string) (l : DailyLog.t) :
  (date', habitId') <> (date, habitId) ->
  sameKey date' habitId' l = true -> negb (sameKey date habitId l) = true.
Proof.
  intros Hne H. apply sameKey_iff in H. apply negb_true_iff.
  destruct (sameKey date habitId l) eqn:E; [|reflexivity].
  apply sameKey_iff in E. congruence.
Qed.

Lemma sameDate_other (date date' : string) (l : MoodLog.t) :
  date' <> date ->
  sameDate date' l = true -> negb (sameDate date l) = true.
Proof.
  intros Hne H. apply sameDate_iff in H. apply negb_true_iff.
  destruct (sameDate date l) eqn:E; [|reflexivity].
  apply sameDate_iff in E. congruence.
Qed.

(** ** The reducer and the other keys *)

Lemma reducer_toggle_fields (s : AppState.t) (date habitId : string) :
  AppState.habits (reducer s (TOGGLE_HABIT date habitId)) = AppState.habits s
  /\ AppState.moodLogs (reducer s (TOGGLE_HABIT date habitId)) = AppState.moodLogs s
  /\ AppState.dailyLogs (reducer s (TOGGLE_HABIT date habitId)) =
       filter (fun l => negb (sameKey date habitId l)) (AppState.dailyLogs s)
       ++ [DailyLog.mk date habitId
             match find (sameKey date habitId) (AppState.dailyLogs s) with
             | Some l => negb (DailyLog.completed l)
             | None => true
             end].
Proof. destruct s; repeat split. Qed.

Lemma reducer_mood_fields (s : AppState.t) (m : MoodLog.t) :
  AppState.habits (reducer s (UPDATE_MOOD m)) = AppState.habits s
  /\ AppState.dailyLogs (reducer s (UPDATE_MOOD m)) = AppState.dailyLogs s
  /\ AppState.moodLogs (reducer s (UPDATE_MOOD m)) =
       filter (fun l => negb (sameDate (MoodLog.date m) l)) (AppState.moodLogs s)
       ++ [m].
Proof. destruct s; repeat split. Qed.

(** X1. A toggle keeps the records of all the other pairs as they were
    and in their order: the array after it is the old one without the
    records of the toggled pair, followed by the pair's new record.  So
    the sub-array of the other records is unchanged, and so are, pair by
    pair, the records of every other pair.  A mood update does the same
    with the dates of the mood logs. *)
Theorem reducer_other_keys :
  (forall s date habitId,
      let logs := AppState.dailyLogs s in
      let logs' := AppState.dailyLogs (reducer s (TOGGLE_HABIT date habitId)) in
      logs' =
        filter (fun l => negb (sameKey date habitId l)) logs
        ++ [DailyLog.mk date habitId
              match find (sameKey date habitId) logs with
              | Some l => negb (DailyLog.completed l)
              | None => true
              end]
      /\ filter (fun l => negb (sameKey date habitId l)) logs' =
         filter (fun l => negb (sameKey date habitId l)) logs
      /\ forall date' habitId',
          (date', habitId') <> (date, habitId) ->
          logsFor date' habitId' logs' = logsFor date' habitId' logs)
  /\ (forall s m,
      let logs := AppState.moodLogs s in
      let logs' := AppState.moodLogs (reducer s (UPDATE_MOOD m)) in
      logs' = filter (fun l => negb (sameDate (MoodLog.date m) l)) logs ++ [m]
      /\ filter (fun l => negb (sameDate (MoodLog.date m) l)) logs' =
         filter (fun l => negb (sameDate (MoodLog.date m) l)) logs
      /\ forall date',
          date' <> MoodLog.date m ->
          moodsFor date' logs' = moodsFor date' logs).
Proof.
  split.
  - intros s date habitId. cbv zeta.
    destruct (reducer_toggle_fields s date habitId) as [_ [_ ->]].
    split; [reflexivity|]. split.
    + rewrite filter_app. simpl. rewrite sameKey_refl. simpl.
      rewrite app_nil_r. now apply filter_filter_implies.
    + intros date' habitId' Hne. unfold logsFor.
      rewrite filter_app. simpl.
      destruct (sameKey date' habitId' (DailyLog.mk date habitId _)) eqn:E.
      * apply sameKey_iff in E. unfold logKey in E. simpl in E. congruence.
      * rewrite app_nil_r. apply filter_filter_implies.
        intros x. now apply sameKey_other.
  - intros s m. cbv zeta.
    destruct (reducer_mood_fields s m) as [_ [_ ->]].
    split; [reflexivity|]. split.
    + rewrite filter_app. simpl.
      replace (sameDate (MoodLog.date m) m) with true
        by (symmetry; now apply sameDate_iff).
      simpl. rewrite app_nil_r. now apply filter_filter_implies.
    + intros date' Hne. unfold moodsFor.
      rewrite filter_app. simpl.
      destruct (sameDate date' m) eqn:E.
      * apply sameDate_iff in E. congruence.
      * rewrite app_nil_r. apply filter_filter_implies.
        intros x. now apply sameDate_other.
Qed.

Lemma reducer_other_keys_witness :
  logsFor "2026-12-30" "A"
    (AppState.dailyLogs (reducer s_scenario (TOGGLE_HABIT "2026-12-31" "A"))) =
  logsFor "2026-12-30" "A" (AppState.dailyLogs s_scenario).
Proof.
  apply (proj2 (proj2 (proj1 reducer_other_keys s_scenario "2026-12-31" "A"))
           "2026-12-30" "A").
  discriminate.
Defined.

(** X2. From any state, duplicates included, a run of [n >= 1] toggles of
    a pair leaves exactly one record for it; its [completed] field is the
    value the pair had before (that of the first record found, [false]
    when there was none), flipped when [n] is odd.  Two toggles give back
    the value the pair started with. *)
Theorem toggle_from_any_state (s : AppState.t) (date habitId : string) (n : nat) :
  0 < n ->
  logsFor date habitId
    (AppState.dailyLogs (dispatchAll s (toggles date habitId n))) =
    [DailyLog.mk date habitId
       (xorb (Nat.odd n)
          match find (sameKey date habitId) (AppState.dailyLogs s) with
          | Some l => DailyLog.completed l
          | None => false
          end)].
Proof.
  intros Hn. destruct n as [|n]; [lia|clear Hn].
  induction n as [|n IH].
  - simpl. rewrite toggle_logsFor.
    now destruct (find (sameKey date habitId) (AppState.dailyLogs s)).
  - rewrite toggles_succ, dispatchAll_snoc, toggle_logsFor.
    unfold logsFor in IH. rewrite (find_filter_head _ _ _ _ IH). simpl.
    rewrite (Nat.odd_succ (S n)), <- Nat.negb_odd.
    now rewrite negb_xorb_l.
Qed.

Lemma toggle_from_any_state_witness :
  logsFor "2026-12-31" "A"
    (AppState.dailyLogs (dispatchAll s_scenario (toggles "2026-12-31" "A" 2))) =
    [DailyLog.mk "2026-12-31" "A" true].
Proof.
  apply (toggle_from_any_state s_scenario "2026-12-31" "A" 2). lia.
Defined.

(** ** Keys stay unique *)

Lemma logKey_not_in_filtered (date habitId : string) (logs : list DailyLog.t) :
  ~ In (date, habitId)
       (map logKey (filter (fun l => negb (sameKey date habitId l)) logs)).
Proof.
  intros Hin. apply in_map_iff in Hin. destruct Hin as [y [Hy Hyl]].
  apply filter_In in Hyl. destruct Hyl as [_ Hn].
  apply sameKey_iff in Hy. rewrite Hy in Hn. discriminate.
Qed.

Lemma date_not_in_filtered (date : string) (logs : list MoodLog.t) :
  ~ In date (map MoodLog.date (filter (fun l => negb (sameDate date l)) logs)).
Proof.
  intros Hin. apply in_map_iff in Hin. destruct Hin as [y [Hy Hyl]].
  apply filter_In in Hyl. destruct Hyl as [_ Hn].
  apply sameDate_iff in Hy. rewrite Hy in Hn. discriminate.
Qed.

Lemma toggle_keeps_unique (s : AppState.t) (date habitId : string) :
  NoDup (map logKey (AppState.dailyLogs s)) ->
  NoDup (map logKey (AppState.dailyLogs (reducer s (TOGGLE_HABIT date habitId)))).
Proof.
  intros H. destruct s; simpl in *. rewrite map_app. simpl.
  apply NoDup_snoc; [now apply NoDup_map_filter|].
  apply logKey_not_in_filtered.
Qed.

Lemma update_mood_keeps_unique (s : AppState.t) (m : MoodLog.t) :
  NoDup (map MoodLog.date (AppState.moodLogs s)) ->
  NoDup (map MoodLog.date (AppState.moodLogs (reducer s (UPDATE_MOOD m)))).
Proof.
  intros H. destruct s; simpl in *. rewrite map_app. simpl.
  apply NoDup_snoc; [now apply NoDup_map_filter|].
  apply date_not_in_filtered.
Qed.

(** X3. Every action but [SET_DATA] keeps the two collections free of
    duplicate keys: if no (date, habit) pair and no mood date occurs twice
    before the action, none does after it. *)
Theorem reducer_keeps_keys_unique (s : AppState.t) (a : Action) :
  (forall payload, a <> SET_DATA payload) ->
  NoDup (map logKey (AppState.dailyLogs s)) ->
  NoDup (map MoodLog.date (AppState.moodLogs s)) ->
  NoDup (map logKey (AppState.dailyLogs (reducer s a)))
  /\ NoDup (map MoodLog.date (AppState.moodLogs (reducer s a))).
Proof.
  intros Ha Hl Hm. destruct a.
  1-3, 5-6: destruct s; simpl in *; now split.
  - now destruct (Ha payload).
  - split; [now apply toggle_keeps_unique|]. now destruct s.
  - split; [now destruct s|]. now apply update_mood_keeps_unique.
Qed.

Lemma reducer_keeps_keys_unique_witness :
  NoDup (map logKey
           (AppState.dailyLogs (reducer s_scenario (TOGGLE_HABIT "2026-12-31" "A"))))
  /\ NoDup (map MoodLog.date
              (AppState.moodLogs (reducer s_scenario (TOGGLE_HABIT "2026-12-31" "A")))).
Proof.
  apply (reducer_keeps_keys_unique s_scenario (TOGGLE_HABIT "2026-12-31" "A")).
  - discriminate.
  - simpl. repeat constructor; simpl; intuition discriminate.
  - constructor.
Defined.

(** ** The store upserts *)

Section UpsertFacts.
Context {A : Type}.
Variable p : A -> bool.

Lemma existsb_none (l : list A) : filter p l = [] -> existsb p l = false.
Proof.
  induction l as [|x l IH]; simpl; [reflexivity|].
  destruct (p x); [discriminate|exact IH].
Qed.

Lemma existsb_middle (l1 l2 : list A) (x : A) :
  p x = true -> existsb p (l1 ++ x :: l2) = true.
Proof.
  intros Hx. rewrite existsb_app. simpl. rewrite Hx.
  now rewrite orb_true_r.
Qed.

Lemma filter_middle_none (l1 l2 : list A) (x : A) :
  p x = true ->
  List.length (filter p (l1 ++ x :: l2)) <= 1 ->
  filter p l2 = [].
Proof.
  intros Hx. rewrite filter_app, length_app. simpl. rewrite Hx. simpl.
  destruct (filter p l2); [reflexivity|simpl; lia].
Qed.

(** With at most one match, replace-the-first-or-append and
    filter-then-push produce the same records, up to their order. *)
Lemma upsert_perm (v : A) (S H : list A) :
  Permutation S H ->
  List.length (filter p H) <= 1 ->
  Permutation
    (filter (fun x => negb (p x)) S ++ [v])
    (if (0 <=? findIndex p H)%Z
     then arraySet H (Z.to_nat (findIndex p H)) v
     else H ++ [v]).
Proof.
  intros HP Hone.
  apply (Permutation_filter (fun x => negb (p x))) in HP.
  destruct (upsert_shape p v H) as [[Hn ->]|[l1 [x [l2 [Hl [Hx [Hn ->]]]]]]].
  - rewrite (filter_none_negb p H Hn) in HP. now apply Permutation_app_tail.
  - subst H. pose proof (filter_middle_none l1 l2 x Hx Hone) as Hn2.
    rewrite filter_app in HP. simpl in HP. rewrite Hx in HP. simpl in HP.
    rewrite (filter_none_negb p l1 Hn), (filter_none_negb p l2 Hn2) in HP.
    transitivity ((l1 ++ l2) ++ [v]); [now apply Permutation_app_tail|].
    rewrite <- app_assoc. apply Permutation_app_head.
    apply Permutation_sym, Permutation_cons_append.
Qed.

End UpsertFacts.

Lemma unique_key_at_most_one (date habitId : string) (logs : list DailyLog.t) :
  NoDup (map logKey logs) ->
  List.length (filter (sameKey date habitId) logs) <= 1.
Proof.
  induction logs as [|x r IH]; simpl; [lia|].
  intros H. inversion H as [|k ks Hx Hr]; subst.
  destruct (sameKey date habitId x) eqn:E; [|now apply IH].
  simpl. assert (Hn : filter (sameKey date habitId) r = []).
  { destruct (filter (sameKey date habitId) r) as [|y ys] eqn:Ef; [reflexivity|].
    exfalso. apply Hx.
    assert (Hy : In y (filter (sameKey date habitId) r)) by (rewrite Ef; now left).
    apply filter_In in Hy. destruct Hy as [Hy Ky].
    apply sameKey_iff in E, Ky. apply in_map_iff. exists y.
    split; [congruence|exact Hy]. }
  rewrite Hn. simpl. lia.
Qed.

Lemma unique_date_at_most_one (date : string) (logs : list MoodLog.t) :
  NoDup (map MoodLog.date logs) ->
  List.length (filter (sameDate date) logs) <= 1.
Proof.
  induction logs as [|x r IH]; simpl; [lia|].
  intros H. inversion H as [|k ks Hx Hr]; subst.
  destruct (sameDate date x) eqn:E; [|now apply IH].
  simpl. assert (Hn : filter (sameDate date) r = []).
  { destruct (filter (sameDate date) r) as [|y ys] eqn:Ef; [reflexivity|].
    exfalso. apply Hx.
    assert (Hy : In y (filter (sameDate date) r)) by (rewrite Ef; now left).
    apply filter_In in Hy. destruct Hy as [Hy Ky].
    apply sameDate_iff in E, Ky. apply in_map_iff. exists y.
    split; [congruence|exact Hy]. }
  rewrite Hn. simpl. lia.
Qed.

Lemma updateDailyLog_frame (config : Config.t) (w : App.t)
  (date habitId : string) (completed : bool) :
  let w' := after (updateDailyLog config date habitId completed) w in
  App.state w' = App.state w
  /\ Hook.localHabits (App.hook w') = Hook.localHabits (App.hook w)
  /\ Hook.localMoodLogs (App.hook w') = Hook.localMoodLogs (App.hook w)
  /\ Hook.isLoading (App.hook w') = Hook.isLoading (App.hook w)
  /\ Hook.error (App.hook w') = Hook.error (App.hook w)
  /\ Hook.isSyncing (App.hook w') =
       (if hasConfig config then false else Hook.isSyncing (App.hook w))
  /\ trace (updateDailyLog config date habitId completed) w =
       SetItem "ht_dailyLogs" :: (if hasConfig config then [Sleep 500] else []).
Proof.
  unfold updateDailyLog, after, trace, bind, getApp. simpl.
  destruct (hasConfig config); simpl; repeat split.
Qed.

Lemma updateMoodLog_frame (config : Config.t) (w : App.t)
  (date : string) (moodScore motivationScore : Z) :
  let w' := after (updateMoodLog config date moodScore motivationScore) w in
  App.state w' = App.state w
  /\ Hook.localHabits (App.hook w') = Hook.localHabits (App.hook w)
  /\ Hook.localDailyLogs (App.hook w') = Hook.localDailyLogs (App.hook w)
  /\ Hook.isLoading (App.hook w') = Hook.isLoading (App.hook w)
  /\ Hook.error (App.hook w') = Hook.error (App.hook w)
  /\ Hook.isSyncing (App.hook w') =
       (if hasConfig config then false else Hook.isSyncing (App.hook w))
  /\ trace (updateMoodLog config date moodScore motivationScore) w =
       SetItem "ht_moodLogs" :: (if hasConfig config then [Sleep 500] else []).
Proof.
  unfold updateMoodLog, after, trace, bind, getApp. simpl.
  destruct (hasConfig config); simpl; repeat split.
Qed.

(** X4. [updateDailyLog] works in place.  The records of every other
    (date, habit) pair stay as they were; the sequence of keys is the old
    one when the pair was present and the old one followed by the new key
    when it was absent, so the store grows by one record at most and keeps
    its order; keys that were unique stay unique.  Nothing else moves: the
    habits, the mood logs, the reducer state, [isLoading] and [error] are
    untouched, [isSyncing] ends [false] when configured, and besides the
    write to local storage the only effect is the 500 ms wait of the
    configured case. *)
Theorem updateDailyLog_in_place (config : Config.t) (w : App.t)
  (date habitId : string) (completed : bool) :
  let logs := Hook.localDailyLogs (App.hook w) in
  let w' := after (updateDailyLog config date habitId completed) w in
  let logs' := Hook.localDailyLogs (App.hook w') in
  (forall date' habitId',
      (date', habitId') <> (date, habitId) ->
      logsFor date' habitId' logs' = logsFor date' habitId' logs)
  /\ map logKey logs' =
       (if existsb (sameKey date habitId) logs then map logKey logs
        else map logKey logs ++ [(date, habitId)])
  /\ (NoDup (map logKey logs) -> NoDup (map logKey logs'))
  /\ App.state w' = App.state w
  /\ Hook.localHabits (App.hook w') = Hook.localHabits (App.hook w)
  /\ Hook.localMoodLogs (App.hook w') = Hook.localMoodLogs (App.hook w)
  /\ Hook.isLoading (App.hook w') = Hook.isLoading (App.hook w)
  /\ Hook.error (App.hook w') = Hook.error (App.hook w)
  /\ Hook.isSyncing (App.hook w') =
       (if hasConfig config then false else Hook.isSyncing (App.hook w))
  /\ trace (updateDailyLog config date habitId completed) w =
       SetItem "ht_dailyLogs" :: (if hasConfig config then [Sleep 500] else []).
Proof.
  cbv zeta. rewrite updateDailyLog_logs. cbv zeta.
  set (logs := Hook.localDailyLogs (App.hook w)).
  set (v := DailyLog.mk date habitId completed).
  assert (Hv : sameKey date habitId v = true) by apply sameKey_refl.
  assert (Hshape := upsert_shape (sameKey date habitId) v logs).
  cbv zeta in Hshape.
  assert (Hkeys :
    map logKey
      (if (0 <=? findIndex (sameKey date habitId) logs)%Z
       then arraySet logs (Z.to_nat (findIndex (sameKey date habitId) logs)) v
       else logs ++ [v]) =
    (if existsb (sameKey date habitId) logs then map logKey logs
     else map logKey logs ++ [(date, habitId)])).
  { destruct Hshape as [[Hn ->]|[l1 [x [l2 [Hl [Hx [Hn ->]]]]]]].
    - rewrite (existsb_none _ _ Hn), map_app. reflexivity.
    - rewrite Hl, (existsb_middle _ l1 l2 x Hx), !map_app. simpl.
      apply sameKey_iff in Hx. now rewrite Hx. }
  split; [|split; [exact Hkeys|split]].
  - intros date' habitId' Hne. unfold logsFor.
    assert (Hv' : sameKey date' habitId' v = false).
    { destruct (sameKey date' habitId' v) eqn:E; [|reflexivity].
      apply sameKey_iff in E. unfold logKey in E. simpl in E. congruence. }
    destruct Hshape as [[Hn ->]|[l1 [x [l2 [Hl [Hx [Hn ->]]]]]]].
    + rewrite filter_app. simpl. rewrite Hv'. apply app_nil_r.
    + rewrite Hl, !filter_app. simpl. rewrite Hv'.
      destruct (sameKey date' habitId' x) eqn:E; [|reflexivity].
      apply (sameKey_other date habitId) in E; [|exact Hne].
      rewrite Hx in E. discriminate.
  - intros Hnd. rewrite Hkeys.
    destruct (existsb (sameKey date habitId) logs) eqn:E; [exact Hnd|].
    apply NoDup_snoc; [exact Hnd|].
    intros Hin. apply in_map_iff in Hin. destruct Hin as [y [Hy Hyl]].
    apply sameKey_iff in Hy.
    assert (existsb (sameKey date habitId) logs = true)
      by (apply existsb_exists; now exists y).
    congruence.
  - apply (updateDailyLog_frame config w date habitId completed).
Qed.

(** X5. [updateMoodLog] works in place in the same way: the records of
    the other dates stay, the sequence of dates is kept (with the new date
    appended when it was absent), unique dates stay unique, and nothing
    but the mood logs, [isSyncing] and local storage is touched. *)
Theorem updateMoodLog_in_place (config : Config.t) (w : App.t)
  (date : string) (moodScore motivationScore : Z) :
  let logs := Hook.localMoodLogs (App.hook w) in
  let w' := after (updateMoodLog config date moodScore motivationScore) w in
  let logs' := Hook.localMoodLogs (App.hook w') in
  (forall date', date' <> date -> moodsFor date' logs' = moodsFor date' logs)
  /\ map MoodLog.date logs' =
       (if existsb (sameDate date) logs then map MoodLog.date logs
        else map MoodLog.date logs ++ [date])
  /\ (NoDup (map MoodLog.date logs) -> NoDup (map MoodLog.date logs'))
  /\ App.state w' = App.state w
  /\ Hook.localHabits (App.hook w') = Hook.localHabits (App.hook w)
  /\ Hook.localDailyLogs (App.hook w') = Hook.localDailyLogs (App.hook w)
  /\ Hook.isLoading (App.hook w') = Hook.isLoading (App.hook w)
  /\ Hook.error (App.hook w') = Hook.error (App.hook w)
  /\ Hook.isSyncing (App.hook w') =
       (if hasConfig config then false else Hook.isSyncing (App.hook w))
  /\ trace (updateMoodLog config date moodScore motivationScore) w =
       SetItem "ht_moodLogs" :: (if hasConfig config then [Sleep 500] else []).
Proof.
  cbv zeta. rewrite updateMoodLog_logs. cbv zeta.
  set (logs := Hook.localMoodLogs (App.hook w)).
  set (v := MoodLog.mk date moodScore motivationScore).
  assert (Hv : sameDate date v = true) by apply sameDate_refl.
  assert (Hshape := upsert_shape (sameDate date) v logs).
  cbv zeta in Hshape.
  assert (Hkeys :
    map MoodLog.date
      (if (0 <=? findIndex (sameDate date) logs)%Z
       then arraySet logs (Z.to_nat (findIndex (sameDate date) logs)) v
       else logs ++ [v]) =
    (if existsb (sameDate date) logs then map MoodLog.date logs
     else map MoodLog.date logs ++ [date])).
  { destruct Hshape as [[Hn ->]|[l1 [x [l2 [Hl [Hx [Hn ->]]]]]]].
    - rewrite (existsb_none _ _ Hn), map_app. reflexivity.
    - rewrite Hl, (existsb_middle _ l1 l2 x Hx), !map_app. simpl.
      apply sameDate_iff in Hx. now rewrite Hx. }
  split; [|split; [exact Hkeys|split]].
  - intros date' Hne. unfold moodsFor.
    assert (Hv' : sameDate date' v = false).
    { destruct (sameDate date' v) eqn:E; [|reflexivity].
      apply sameDate_iff in E. simpl in E. congruence. }
    destruct Hshape as [[Hn ->]|[l1 [x [l2 [Hl [Hx [Hn ->]]]]]]].
    + rewrite filter_app. simpl. rewrite Hv'. apply app_nil_r.
    + rewrite Hl, !filter_app. simpl. rewrite Hv'.
      destruct (sameDate date' x) eqn:E; [|reflexivity].
      apply (sameDate_other date) in E; [|exact Hne].
      rewrite Hx in E. discriminate.
  - intros Hnd. rewrite Hkeys.
    destruct (existsb (sameDate date) logs) eqn:E; [exact Hnd|].
    apply NoDup_snoc; [exact Hnd|].
    intros Hin. apply in_map_iff in Hin. destruct Hin as [y [Hy Hyl]].
    apply sameDate_iff in Hy.
    assert (existsb (sameDate date) logs = true)
      by (apply existsb_exists; now exists y).
    congruence.
  - apply (updateMoodLog_frame config w date moodScore motivationScore).
Qed.

Lemma updateDailyLog_in_place_witness :
  NoDup (map logKey
           (Hook.localDailyLogs
              (App.hook (after (updateDailyLog cfg_full "2026-12-31" "B" true)
                               w_one_log)))).
Proof.
  apply (proj1 (proj2 (proj2
    (updateDailyLog_in_place cfg_full w_one_log "2026-12-31" "B" true)))).
  simpl. repeat constructor; simpl; intuition discriminate.
Defined.

Lemma updateMoodLog_in_place_witness :
  NoDup (map MoodLog.date
           (Hook.localMoodLogs
              (App.hook (after (updateMoodLog cfg_full "2026-12-31" 8 8)
                               w_one_log)))).
Proof.
  apply (proj1 (proj2 (proj2
    (updateMoodLog_in_place cfg_full w_one_log "2026-12-31" 8 8)))).
  simpl. repeat constructor; simpl; intuition discriminate.
Defined.

(** ** The handlers keep the reducer and the store in step *)

Lemma existsb_completed_find (date habitId : string) (logs : list DailyLog.t) :
  List.length (filter (sameKey date habitId) logs) <= 1 ->
  existsb (fun l => sameKey date habitId l && DailyLog.completed l) logs =
    match find (sameKey date habitId) logs with
    | Some l => DailyLog.completed l
    | None => false
    end.
Proof.
  induction logs as [|x r IH]; simpl; [reflexivity|].
  destruct (sameKey date habitId x) eqn:E; simpl; [|exact IH].
  intros H. destruct (filter (sameKey date habitId) r) eqn:Ef; [|simpl in H; lia].
  rewrite (existsb_none (fun l => sameKey date habitId l && DailyLog.completed l) r).
  - apply orb_false_r.
  - clear - Ef. induction r as [|y r IH]; simpl in *; [reflexivity|].
    destruct (sameKey date habitId y); [discriminate|]. simpl. now apply IH.
Qed.

Lemma handleToggleHabit_after (config : Config.t) (today habitId : string)
  (w : App.t) :
  let w' := after (handleToggleHabit config today habitId) w in
  let done :=
    existsb (fun l => sameKey today habitId l && DailyLog.completed l)
            (AppState.dailyLogs (App.state w)) in
  App.state w' = reducer (App.state w) (TOGGLE_HABIT today habitId)
  /\ Hook.localDailyLogs (App.hook w') =
       (let logs := Hook.localDailyLogs (App.hook w) in
        if (0 <=? findIndex (sameKey today habitId) logs)%Z
        then arraySet logs (Z.to_nat (findIndex (sameKey today habitId) logs))
                      (DailyLog.mk today habitId (negb done))
        else logs ++ [DailyLog.mk today habitId (negb done)])
  /\ Hook.localMoodLogs (App.hook w') = Hook.localMoodLogs (App.hook w)
  /\ Hook.localHabits (App.hook w') = Hook.localHabits (App.hook w).
Proof.
  unfold handleToggleHabit, updateDailyLog, after, bind, getApp, dispatch. simpl.
  destruct (hasConfig config); simpl; repeat split.
Qed.

Lemma handleMoodChange_after (config : Config.t) (today : string)
  (type : MoodKind) (val : Z) (w : App.t) :
  let w' := after (handleMoodChange config today type val) w in
  let new := newMood today (App.state w) type val in
  App.state w' = reducer (App.state w) (UPDATE_MOOD new)
  /\ Hook.localMoodLogs (App.hook w') =
       (let logs := Hook.localMoodLogs (App.hook w) in
        if (0 <=? findIndex (sameDate today) logs)%Z
        then arraySet logs (Z.to_nat (findIndex (sameDate today) logs))
                      (MoodLog.mk today (MoodLog.moodScore new)
                                  (MoodLog.motivationScore new))
        else logs ++ [MoodLog.mk today (MoodLog.moodScore new)
                                 (MoodLog.motivationScore new)])
  /\ Hook.localDailyLogs (App.hook w') = Hook.localDailyLogs (App.hook w)
  /\ Hook.localHabits (App.hook w') = Hook.localHabits (App.hook w).
Proof.
  unfold handleMoodChange, updateMoodLog, after, bind, getApp, dispatch. simpl.
  destruct (hasConfig config); simpl; repeat split.
Qed.

Lemma handleToggleHabit_keeps_sync_core (config : Config.t)
  (today habitId : string) (w : App.t) :
  inSync w ->
  inSync (after (handleToggleHabit config today habitId) w)
  /\ logsFor today habitId
       (Hook.localDailyLogs
          (App.hook (after (handleToggleHabit config today habitId) w))) =
     logsFor today habitId
       (AppState.dailyLogs
          (App.state (after (handleToggleHabit config today habitId) w))).
Proof.
  intros [Hh [Hl [Hm [Pl Pm]]]].
  destruct (handleToggleHabit_after config today habitId w)
    as [Es [El [Em Eh]]].
  destruct (reducer_toggle_fields (App.state w) today habitId)
    as [Rh [Rm Rl]].
  pose proof (unique_key_at_most_one today habitId _ Hl) as Hone.
  assert (HoneH : List.length
            (filter (sameKey today habitId) (Hook.localDailyLogs (App.hook w))) <= 1).
  { rewrite <- (Permutation_length (Permutation_filter (sameKey today habitId) _ _ Pl)).
    exact Hone. }
  assert (Ec : negb (existsb (fun l => sameKey today habitId l && DailyLog.completed l)
                       (AppState.dailyLogs (App.state w))) =
               match find (sameKey today habitId) (AppState.dailyLogs (App.state w)) with
               | Some l => negb (DailyLog.completed l)
               | None => true
               end).
  { rewrite (existsb_completed_find today habitId _ Hone).
    now destruct (find (sameKey today habitId) (AppState.dailyLogs (App.state w))). }
  cbv zeta in El. rewrite Ec in El.
  assert (HP : Permutation
            (AppState.dailyLogs (App.state (after (handleToggleHabit config today habitId) w)))
            (Hook.localDailyLogs (App.hook (after (handleToggleHabit config today habitId) w)))).
  { rewrite Es, Rl, El. now apply upsert_perm. }
  split.
  - unfold inSync. rewrite Eh, Em.
    split; [rewrite Es, Rh; exact Hh|].
    split; [rewrite Es; now apply toggle_keeps_unique|].
    split; [rewrite Es, Rm; exact Hm|].
    split; [exact HP|rewrite Es, Rm; exact Pm].
  - rewrite El. unfold logsFor.
    rewrite (upsert_filter (sameKey today habitId) _ _ (sameKey_refl _ _ _)).
    rewrite Es. fold (logsFor today habitId
      (AppState.dailyLogs (reducer (App.state w) (TOGGLE_HABIT today habitId)))).
    rewrite toggle_logsFor. f_equal.
    destruct (filter (sameKey today habitId) (Hook.localDailyLogs (App.hook w)))
      as [|x [|y r]]; [reflexivity|reflexivity|simpl in HoneH; lia].
Qed.

(** X6. [handleToggleHabit] keeps the reducer and the store in step: when
    both hold the same catalog and the same records with every key once,
    they still do after the handler has dispatched the toggle and upserted
    the store, although the reducer moves the record to the end and the
    store rewrites it in place.  Both then hold one record for the pair,
    with the same [completed] value. *)
Theorem handleToggleHabit_keeps_sync (config : Config.t)
  (today habitId : string) (w : App.t) :
  inSync w ->
  inSync (after (handleToggleHabit config today habitId) w)
  /\ logsFor today habitId
       (Hook.localDailyLogs
          (App.hook (after (handleToggleHabit config today habitId) w))) =
     logsFor today habitId
       (AppState.dailyLogs
          (App.state (after (handleToggleHabit config today habitId) w))).
Proof. apply handleToggleHabit_keeps_sync_core. Qed.

Lemma handleMoodChange_keeps_sync_core (config : Config.t) (today : string)
  (type : MoodKind) (val : Z) (w : App.t) :
  inSync w ->
  inSync (after (handleMoodChange config today type val) w).
Proof.
  intros [Hh [Hl [Hm [Pl Pm]]]].
  destruct (handleMoodChange_after config today type val w)
    as [Es [Em [El Eh]]].
  set (new := newMood today (App.state w) type val) in *.
  destruct (reducer_mood_fields (App.state w) new) as [Rh [Rl Rm]].
  assert (Enew : MoodLog.mk today (MoodLog.moodScore new)
                            (MoodLog.motivationScore new) = new).
  { unfold new. rewrite (newMood_eq today (App.state w) type val). reflexivity. }
  cbv zeta in Em. rewrite Enew in Em.
  assert (Ed : MoodLog.date new = today) by apply newMood_date.
  rewrite Ed in Rm.
  assert (HoneH : List.length
            (filter (sameDate today) (Hook.localMoodLogs (App.hook w))) <= 1).
  { rewrite <- (Permutation_length (Permutation_filter (sameDate today) _ _ Pm)).
    now apply unique_date_at_most_one. }
  unfold inSync. rewrite Eh, El, Es.
  split; [rewrite Rh; exact Hh|].
  split; [rewrite Rl; exact Hl|].
  split; [now apply update_mood_keeps_unique|].
  split; [rewrite Rl; exact Pl|].
  rewrite Rm, Em. now apply upsert_perm.
Qed.

(** X7. [handleMoodChange] keeps the reducer and the store in step in the
    same way. *)
Theorem handleMoodChange_keeps_sync (config : Config.t) (today : string)
  (type : MoodKind) (val : Z) (w : App.t) :
  inSync w ->
  inSync (after (handleMoodChange config today type val) w).
Proof. apply handleMoodChange_keeps_sync_core. Qed.

Lemma w_one_log_inSync : inSync w_one_log.
Proof.
  unfold inSync, w_one_log. simpl. split; [reflexivity|].
  split; [repeat constructor; simpl; intuition discriminate|].
  split; [repeat constructor; simpl; intuition discriminate|].
  split; [apply perm_swap|apply Permutation_refl].
Qed.

Lemma handleToggleHabit_keeps_sync_witness :
  inSync (after (handleToggleHabit cfg_full "2026-12-31" "A") w_one_log).
Proof.
  apply (proj1 (handleToggleHabit_keeps_sync cfg_full "2026-12-31" "A"
                  w_one_log w_one_log_inSync)).
Defined.

Lemma handleMoodChange_keeps_sync_witness :
  inSync (after (handleMoodChange cfg_full "2026-12-31" mood 9) w_one_log).
Proof.
  apply (handleMoodChange_keeps_sync cfg_full "2026-12-31" mood 9
           w_one_log w_one_log_inSync).
Defined.

(** ** Views and the order of the records *)

Lemma length_filter_perm {A : Type} (p : A -> bool) (l l' : list A) :
  Permutation l l' -> List.length (filter p l) = List.length (filter p l').
Proof. intros H. apply Permutation_length. now apply Permutation_filter. Qed.

Lemma streakLoop_state_ext (iso : nat -> string) (s s' : AppState.t)
  (remaining : nat) :
  (forall i, dayRate iso s i = dayRate iso s' i) ->
  forall i streak,
    streakLoop iso s remaining i streak = streakLoop iso s' remaining i streak.
Proof.
  intros H. induction remaining as [|r IH]; intros i streak; [reflexivity|].
  cbn [streakLoop]. rewrite (H i), (IH (S i) (S streak)), (IH (S i) streak).
  reflexivity.
Qed.

Lemma views_perm (s s' : AppState.t) :
  Permutation (AppState.dailyLogs s) (AppState.dailyLogs s') ->
  List.length (AppState.habits s) = List.length (AppState.habits s') ->
  (forall date, completionRate s date = completionRate s' date
                /\ getDayData s date = getDayData s' date)
  /\ (forall iso, currentStreak iso s = currentStreak iso s')
  /\ totalLogs s = totalLogs s'.
Proof.
  intros HP Hh. split; [|split].
  - intros date. unfold completionRate, getDayData.
    now rewrite Hh, (length_filter_perm (completedOn date) _ _ HP).
  - intros iso. unfold currentStreak. apply streakLoop_state_ext.
    intros i. unfold dayRate.
    now rewrite Hh, (length_filter_perm (completedOn (iso i)) _ _ HP).
  - unfold totalLogs. now apply length_filter_perm.
Qed.

(** X8. The derived views depend on the records only up to their order:
    two states with the same number of habits whose daily logs are
    permutations of each other have the same completion rate for every
    date (in both views), the same streak and the same total. *)
Theorem views_ignore_order (s s' : AppState.t) :
  Permutation (AppState.dailyLogs s) (AppState.dailyLogs s') ->
  List.length (AppState.habits s) = List.length (AppState.habits s') ->
  (forall date, completionRate s date = completionRate s' date
                /\ getDayData s date = getDayData s' date)
  /\ (forall iso, currentStreak iso s = currentStreak iso s')
  /\ totalLogs s = totalLogs s'.
Proof. apply views_perm. Qed.

Lemma views_ignore_order_witness :
  currentStreak daysBefore_2026_12_31 (App.state w_one_log) =
  currentStreak daysBefore_2026_12_31
    (reducer (App.state w_one_log) (SET_DATA (localData (App.hook w_one_log)))).
Proof.
  apply (proj1 (proj2
    (views_ignore_order (App.state w_one_log)
       (reducer (App.state w_one_log) (SET_DATA (localData (App.hook w_one_log))))
       (perm_swap _ _ _) eq_refl))).
Defined.

Lemma syncData_after (w : App.t) :
  inSync w ->
  let w' := after syncData w in
  App.hook w' = App.hook w
  /\ AppState.habits (App.state w') = Hook.localHabits (App.hook w)
  /\ AppState.dailyLogs (App.state w') = Hook.localDailyLogs (App.hook w)
  /\ AppState.moodLogs (App.state w') = Hook.localMoodLogs (App.hook w)
  /\ inSync w'
  /\ (forall date,
        completionRate (App.state w') date = completionRate (App.state w) date)
  /\ (forall iso,
        currentStreak iso (App.state w') = currentStreak iso (App.state w)).
Proof.
  intros [Hh [Hl [Hm [Pl Pm]]]]. cbv zeta.
  assert (E : App.state (after syncData w) =
              reducer (App.state w) (SET_DATA (localData (App.hook w))))
    by reflexivity.
  assert (Eh : App.hook (after syncData w) = App.hook w) by reflexivity.
  assert (F : AppState.habits (App.state (after syncData w)) =
                Hook.localHabits (App.hook w)
              /\ AppState.dailyLogs (App.state (after syncData w)) =
                Hook.localDailyLogs (App.hook w)
              /\ AppState.moodLogs (App.state (after syncData w)) =
                Hook.localMoodLogs (App.hook w)).
  { rewrite E. destruct (App.state w). repeat split. }
  destruct F as [Fh [Fl Fm]].
  assert (V := views_perm (App.state (after syncData w)) (App.state w)).
  rewrite Fl, Fh in V.
  specialize (V (Permutation_sym Pl) ltac:(now rewrite Hh)).
  destruct V as [Vr [Vs _]].
  do 4 (split; [assumption|]).
  split; [|split; [intros date; apply Vr|exact Vs]].
  unfold inSync. rewrite Eh, Fh, Fl, Fm.
  split; [reflexivity|].
  split; [apply (Permutation_NoDup (Permutation_map logKey Pl) Hl)|].
  split; [apply (Permutation_NoDup (Permutation_map MoodLog.date Pm) Hm)|].
  split; apply Permutation_refl.
Qed.


Lemma syncData_fields (w : App.t) :
  let w' := after syncData w in
  App.hook w' = App.hook w
  /\ AppState.habits (App.state w') = Hook.localHabits (App.hook w)
  /\ AppState.dailyLogs (App.state w') = Hook.localDailyLogs (App.hook w)
  /\ AppState.moodLogs (App.state w') = Hook.localMoodLogs (App.hook w)
  /\ AppState.isLoading (App.state w') = false
  /\ AppState.currentView (App.state w') = AppState.currentView (App.state w)
  /\ AppState.currentMonth (App.state w') = AppState.currentMonth (App.state w)
  /\ AppState.isSyncing (App.state w') = AppState.isSyncing (App.state w)
  /\ AppState.error (App.state w') = AppState.error (App.state w).
Proof.
  cbv zeta.
  assert (E : App.state (after syncData w) =
              reducer (App.state w) (SET_DATA (localData (App.hook w))))
    by reflexivity.
  split; [reflexivity|]. rewrite E. destruct (App.state w). repeat split.
Qed.

Lemma syncData_from_store (w : App.t) :
  NoDup (map logKey (Hook.localDailyLogs (App.hook w))) ->
  NoDup (map MoodLog.date (Hook.localMoodLogs (App.hook w))) ->
  inSync (after syncData w).
Proof.
  intros Hl Hm.
  destruct (syncData_fields w) as [Eh [Fh [Fl [Fm _]]]].
  unfold inSync. rewrite Eh, Fh, Fl, Fm.
  split; [reflexivity|]. split; [exact Hl|]. split; [exact Hm|].
  split; apply Permutation_refl.
Qed.

(** X9. The effect that copies the hook's data into the reducer hands the
    store's three collections to the reducer as they are, clears
    [isLoading], keeps the rest of the reducer state and leaves the hook
    alone, whatever the state was before (the empty state at mount
    included).  Over a store with unique keys the two are in step after
    it.  When they were in step before, it changes at most the order of
    the records: they stay in step, and every completion rate and the
    streak are what they were. *)
Theorem syncData_adopts_store (w : App.t) :
  let w' := after syncData w in
  (App.hook w' = App.hook w
   /\ AppState.habits (App.state w') = Hook.localHabits (App.hook w)
   /\ AppState.dailyLogs (App.state w') = Hook.localDailyLogs (App.hook w)
   /\ AppState.moodLogs (App.state w') = Hook.localMoodLogs (App.hook w)
   /\ AppState.isLoading (App.state w') = false
   /\ AppState.currentView (App.state w') = AppState.currentView (App.state w)
   /\ AppState.currentMonth (App.state w') = AppState.currentMonth (App.state w)
   /\ AppState.isSyncing (App.state w') = AppState.isSyncing (App.state w)
   /\ AppState.error (App.state w') = AppState.error (App.state w))
  /\ (NoDup (map logKey (Hook.localDailyLogs (App.hook w))) ->
      NoDup (map MoodLog.date (Hook.localMoodLogs (App.hook w))) ->
      inSync w')
  /\ (inSync w ->
      inSync w'
      /\ (forall date,
            completionRate (App.state w') date = completionRate (App.state w) date)
      /\ (forall iso,
            currentStreak iso (App.state w') = currentStreak iso (App.state w))).
Proof.
  cbv zeta. split; [apply syncData_fields|]. split; [apply syncData_from_store|].
  intros Hs. destruct (syncData_after w Hs) as [_ [_ [_ [_ [Hs' [Hr Hk]]]]]].
  split; [exact Hs'|]. split; [exact Hr|exact Hk].
Qed.

Lemma syncData_adopts_store_witness :
  inSync (after syncData w_fresh)
  /\ inSync (after syncData w_one_log).
Proof.
  split.
  - apply (proj1 (proj2 (syncData_adopts_store w_fresh))); constructor.
  - apply (proj1 (proj2 (proj2 (syncData_adopts_store w_one_log))
                   w_one_log_inSync)).
Defined.

(** ** What a toggle does to today's view *)

Lemma isCompleted_eq (s : AppState.t) (today : string) (habit : Habit.t) :
  isCompleted s today habit =
    existsb (fun l => sameKey today (Habit.id habit) l && DailyLog.completed l)
            (AppState.dailyLogs s).
Proof. reflexivity. Qed.

Lemma completedOn_sameKey (date habitId : string) (l : DailyLog.t) :
  sameKey date habitId l = true -> completedOn date l = DailyLog.completed l.
Proof.
  unfold sameKey, completedOn. intros H. apply andb_prop in H.
  destruct H as [H _]. now rewrite H.
Qed.

Lemma completedOn_mk (date habitId : string) (c : bool) :
  completedOn date (DailyLog.mk date habitId c) = c.
Proof. unfold completedOn. simpl. now rewrite String.eqb_refl. Qed.

Lemma existsb_key_filtered (date habitId : string) (logs : list DailyLog.t) :
  existsb (fun l => sameKey date habitId l && DailyLog.completed l)
          (filter (fun l => negb (sameKey date habitId l)) logs) = false.
Proof.
  induction logs as [|x r IH]; simpl; [reflexivity|].
  destruct (sameKey date habitId x) eqn:E; simpl; [exact IH|].
  now rewrite E.
Qed.

(** X10. When a pair has at most one record, toggling it flips the
    checkbox of the habit card and moves the number of completed records
    of the day by exactly one: up when the habit was not done, down when
    it was. *)
Theorem toggle_moves_count_by_one (s : AppState.t) (today : string)
  (habit : Habit.t) :
  List.length (logsFor today (Habit.id habit) (AppState.dailyLogs s)) <= 1 ->
  let s' := reducer s (TOGGLE_HABIT today (Habit.id habit)) in
  let count := List.length (filter (completedOn today) (AppState.dailyLogs s)) in
  let count' := List.length (filter (completedOn today) (AppState.dailyLogs s')) in
  isCompleted s' today habit = negb (isCompleted s today habit)
  /\ (if isCompleted s today habit then S count' = count else count' = S count).
Proof.
  intros Hone. cbv zeta. rewrite !isCompleted_eq.
  destruct (reducer_toggle_fields s today (Habit.id habit)) as [_ [_ Rl]].
  rewrite Rl. clear Rl. unfold logsFor in Hone.
  rewrite (existsb_completed_find today (Habit.id habit) _ Hone).
  rewrite existsb_app, existsb_key_filtered. simpl.
  rewrite sameKey_refl. simpl. rewrite orb_false_r.
  rewrite filter_app, length_app. simpl.
  rewrite completedOn_mk.
  rewrite (length_filter_split (completedOn today)
             (sameKey today (Habit.id habit)) (AppState.dailyLogs s)).
  destruct (filter (sameKey today (Habit.id habit)) (AppState.dailyLogs s))
    as [|x [|y r]] eqn:Ef; [| |simpl in Hone; lia].
  - rewrite (find_filter_nil _ _ Ef). simpl. split; [reflexivity|lia].
  - rewrite (find_filter_head _ _ _ _ Ef). simpl.
    assert (Hx : sameKey today (Habit.id habit) x = true).
    { assert (In x (filter (sameKey today (Habit.id habit)) (AppState.dailyLogs s)))
        by (rewrite Ef; now left).
      apply filter_In in H. tauto. }
    rewrite (completedOn_sameKey today (Habit.id habit) x Hx).
    split; [reflexivity|].
    destruct (DailyLog.completed x); simpl; lia.
Qed.

Lemma toggle_moves_count_by_one_witness :
  isCompleted (reducer s_scenario (TOGGLE_HABIT "2026-12-31" "A"))
              "2026-12-31" habitA = false.
Proof.
  apply (proj1 (toggle_moves_count_by_one s_scenario "2026-12-31" habitA
                  ltac:(simpl; lia))).
Defined.

(** ** Streak: the empty cases *)

Section StreakMore.
Variable isoDaysAgo : nat -> string.
Variable s : AppState.t.

Lemma streakLoop_step (remaining i streak : nat) :
  streakLoop isoDaysAgo s (S remaining) i streak =
    if jsGe (dayRate isoDaysAgo s i) 1
    then streakLoop isoDaysAgo s remaining (S i) (S streak)
    else if 0 <? i then streak
         else streakLoop isoDaysAgo s remaining (S i) streak.
Proof. reflexivity. Qed.

Lemma streakLoop_ge (remaining : nat) :
  forall i streak, streak <= streakLoop isoDaysAgo s remaining i streak.
Proof.
  induction remaining as [|r IH]; intros i streak; simpl; [lia|].
  destruct (jsGe (dayRate isoDaysAgo s i) 1).
  - specialize (IH (S i) (S streak)). lia.
  - destruct (0 <? i); [lia|apply IH].
Qed.

End StreakMore.

(** X11. The streak is 0 exactly when neither today nor yesterday is a
    full day, whatever the days before were; in particular it is 0 when
    the catalog is empty. *)
Theorem streak_zero_iff (iso : nat -> string) (s : AppState.t) :
  (currentStreak iso s = 0 <->
   jsGe (dayRate iso s 0) 1 = false /\ jsGe (dayRate iso s 1) 1 = false)
  /\ (AppState.habits s = [] -> currentStreak iso s = 0).
Proof.
  assert (Hiff : currentStreak iso s = 0 <->
    jsGe (dayRate iso s 0) 1 = false /\ jsGe (dayRate iso s 1) 1 = false).
  { unfold currentStreak. rewrite (streakLoop_today iso s 364).
    destruct (jsGe (dayRate iso s 0) 1) eqn:E0.
    - pose proof (streakLoop_ge iso s 364 1 1). split; [lia|intros [H0 _]; discriminate].
    - rewrite (streakLoop_step iso s 363 1 0).
      destruct (jsGe (dayRate iso s 1) 1) eqn:E1.
      + pose proof (streakLoop_ge iso s 363 2 1).
        split; [lia|intros [_ H1]; discriminate].
      + simpl. tauto. }
  split; [exact Hiff|].
  intros Hh. apply Hiff. unfold dayRate. rewrite Hh. simpl. split; reflexivity.
Qed.

Lemma streak_zero_iff_witness :
  currentStreak daysBefore_2026_12_31 s_fresh = 0.
Proof.
  apply (proj2 (streak_zero_iff daysBefore_2026_12_31 s_fresh)). reflexivity.
Defined.

(** ** The calendar grid *)

Lemma calendarRows_eq (days startOffset : Z) :
  calendarRows days startOffset = ((days + startOffset + 6) / 7)%Z.
Proof.
  unfold calendarRows, Qceiling, Qfloor, Qdiv, Qmult, Qinv, Qopp, inject_Z.
  cbn [Qnum Qden]. cbn [Z.mul Pos.mul]. 
  rewrite Z.mul_1_r.
  Z.to_euclidean_division_equations. lia.
Qed.

Lemma map_seq_const {B : Type} (f : nat -> B) (b : B) (n : nat) :
  forall start,
    (forall i, start <= i < start + n -> f i = b) ->
    map f (seq start n) = repeat b n.
Proof.
  induction n as [|n IH]; intros start H; simpl; [reflexivity|].
  rewrite (H start) by lia. f_equal. apply IH. intros i Hi. apply H. lia.
Qed.

Lemma map_seq_shift {B : Type} (f g : nat -> B) (n : nat) :
  forall a c,
    (forall k, k < n -> f (a + k) = g (c + k)) ->
    map f (seq a n) = map g (seq c n).
Proof.
  induction n as [|n IH]; intros a c H; simpl; [reflexivity|].
  f_equal.
  - specialize (H 0 ltac:(lia)). now rewrite !Nat.add_0_r in H.
  - apply IH. intros k Hk. specialize (H (S k) ltac:(lia)).
    now rewrite !Nat.add_succ_r in H.
Qed.

(** X12. [getDaysInMonth] turns the Sunday-based weekday of the first of
    the month into a Monday-based offset: for a weekday from 0 to 6 the
    offset lies from 0 to 6, is 0 for Monday and 6 for Sunday, and is one
    less than the weekday, modulo 7; the number of days is passed on. *)
Theorem startOffset_monday_based (days firstDay : Z) :
  (0 <= firstDay <= 6)%Z ->
  fst (getDaysInMonth days firstDay) = days
  /\ (0 <= snd (getDaysInMonth days firstDay) <= 6)%Z
  /\ ((snd (getDaysInMonth days firstDay) + 1) mod 7 = firstDay)%Z
  /\ (snd (getDaysInMonth days firstDay) = 0 <-> firstDay = 1)%Z
  /\ (snd (getDaysInMonth days firstDay) = 6 <-> firstDay = 0)%Z.
Proof.
  intros H. unfold getDaysInMonth. simpl.
  destruct (firstDay =? 0)%Z eqn:E.
  - apply Z.eqb_eq in E. subst. repeat split; lia.
  - apply Z.eqb_neq in E. repeat split; try lia.
    rewrite Z.sub_add. apply Z.mod_small. lia.
Qed.

Lemma startOffset_monday_based_witness :
  snd (getDaysInMonth 31 0) = 6%Z <-> 0%Z = 0%Z.
Proof.
  apply (proj2 (proj2 (proj2 (proj2
    (startOffset_monday_based 31 0 ltac:(lia)))))).
Defined.

(** X13. The calendar grid shows every day of the month once and in
    order: it is made of [startOffset] blank cells, then the days 1 to
    [days], then fewer than 7 blank cells that complete the last row.  A
    month of 28 to 31 days with an offset from 0 to 6 takes 4 to 6 rows. *)
Theorem calendar_grid (days startOffset : Z) :
  (0 <= days)%Z ->
  (0 <= startOffset)%Z ->
  let rows := calendarRows days startOffset in
  let padding := (rows * 7 - (days + startOffset))%Z in
  calendarCells days startOffset =
    repeat None (Z.to_nat startOffset)
    ++ map (fun d => Some (Z.of_nat d)) (seq 1 (Z.to_nat days))
    ++ repeat None (Z.to_nat padding)
  /\ (0 <= padding < 7)%Z
  /\ ((28 <= days <= 31)%Z -> (startOffset <= 6)%Z -> (4 <= rows <= 6)%Z).
Proof.
  intros Hd Ho. cbv zeta.
  assert (Hp : (0 <= calendarRows days startOffset * 7 - (days + startOffset) < 7)%Z).
  { rewrite calendarRows_eq. Z.to_euclidean_division_equations. lia. }
  split; [|split; [exact Hp|]].
  - unfold calendarCells.
    replace (Z.to_nat (calendarRows days startOffset * 7))
      with (Z.to_nat startOffset
            + (Z.to_nat days
               + Z.to_nat (calendarRows days startOffset * 7 - (days + startOffset))))
      by lia.
    rewrite !seq_app, !map_app. simpl. f_equal; [|f_equal].
    + apply map_seq_const. intros i Hi. unfold calendarCell.
      replace (Z.of_nat i - startOffset + 1 <? 1)%Z with true
        by (symmetry; apply Z.ltb_lt; lia).
      reflexivity.
    + apply map_seq_shift. intros k Hk. unfold calendarCell.
      replace (Z.of_nat (Z.to_nat startOffset + k) - startOffset + 1 <? 1)%Z
        with false by (symmetry; apply Z.ltb_ge; lia).
      replace (Z.of_nat (Z.to_nat startOffset + k) - startOffset + 1 >? days)%Z
        with false by (symmetry; rewrite Z.gtb_ltb; apply Z.ltb_ge; lia).
      simpl. f_equal. lia.
    + apply map_seq_const. intros i Hi. unfold calendarCell.
      replace (Z.of_nat i - startOffset + 1 >? days)%Z with true
        by (symmetry; rewrite Z.gtb_ltb; apply Z.ltb_lt; lia).
      now rewrite orb_true_r.
  - intros H28 H6. rewrite calendarRows_eq.
    Z.to_euclidean_division_equations. lia.
Qed.

Lemma calendar_grid_witness :
  calendarCells 31 1 =
    repeat None 1
    ++ map (fun d => Some (Z.of_nat d)) (seq 1 31)
    ++ repeat None 3.
Proof.
  apply (proj1 (calendar_grid 31 1 ltac:(lia) ltac:(lia))).
Defined.

(** ** Bars *)

Lemma completionRate_fin (s : AppState.t) (date : string) :
  exists r, completionRate s date = Fin r /\ (0 <= r)%Q.
Proof.
  unfold completionRate.
  destruct (List.length (AppState.habits s)) as [|m] eqn:E.
  - exists 0%Q. split; [reflexivity|lra].
  - change (S m =? 0) with false. cbv iota. unfold lengthRatio, jsTimes.
    eexists. split; [reflexivity|]. apply (percent_nonneg _ (S m)). lia.
Qed.

(** X14. The bar drawn by [ProgressBar] is never wider than its track:
    for every rate that is a number the width is a number from 0 to 100,
    equal to the rate when the rate lies in that range and to 100 above
    it.  So for the completion rate of any state and date, which can
    exceed 100, the width drawn stays within 0 and 100. *)
Theorem progress_width_clamped :
  (forall r : Q,
      exists q,
        progressWidth (Fin r) = Fin q
        /\ (0 <= q <= 100)%Q
        /\ ((0 <= r <= 100)%Q -> (q == r)%Q)
        /\ ((100 <= r)%Q -> (q == 100)%Q)
        /\ ((r <= 0)%Q -> (q == 0)%Q))
  /\ (forall s date,
      exists q,
        progressWidth (completionRate s date) = Fin q /\ (0 <= q <= 100)%Q).
Proof.
  assert (Hfin : forall r : Q,
      exists q,
        progressWidth (Fin r) = Fin q
        /\ (0 <= q <= 100)%Q
        /\ ((0 <= r <= 100)%Q -> (q == r)%Q)
        /\ ((100 <= r)%Q -> (q == 100)%Q)
        /\ ((r <= 0)%Q -> (q == 0)%Q)).
  { intros r. unfold progressWidth, mathMin, mathMax.
    eexists. split; [reflexivity|].
    destruct (Qle_bool_spec 100 r).
    - destruct (Qle_bool_spec 100 0); repeat split; intros; lra.
    - destruct (Qle_bool_spec r 0); repeat split; intros; lra. }
  split; [exact Hfin|].
  intros s date. destruct (completionRate_fin s date) as [r [Er _]].
  rewrite Er. destruct (Hfin r) as [q [Eq [Hq _]]]. now exists q.
Qed.

Lemma progress_width_clamped_witness :
  exists q, progressWidth (completionRate s_surplus "2026-12-31") = Fin q
            /\ (0 <= q <= 100)%Q.
Proof.
  apply (proj2 progress_width_clamped s_surplus "2026-12-31").
Defined.

(** X15. The performance bar of a habit is a number from 0 to 100, and is
    full exactly from 30 completed records on. *)
Theorem habit_pct_clamped (s : AppState.t) (h : Habit.t) :
  exists q,
    habitPct s h = Fin q
    /\ (0 <= q <= 100)%Q
    /\ ((q == 100)%Q <-> 30 <= habitCount s h).
Proof.
  unfold habitPct. set (n := habitCount s h). clearbody n.
  unfold lengthRatio, jsTimes, mathMin.
  eexists. split; [reflexivity|].
  assert (Hv : ((Z.of_nat n # Pos.of_nat 30) * 100 == inject_Z (Z.of_nat n) * (10 # 3))%Q).
  { unfold Qeq, Qmult, inject_Z. cbn [Qnum Qden]. simpl Pos.of_nat. lia. }
  assert (Hn : (0 <= inject_Z (Z.of_nat n))%Q).
  { unfold Qle, inject_Z. simpl. lia. }
  assert (H30 : 30 <= n <-> (30 <= inject_Z (Z.of_nat n))%Q).
  { unfold Qle, inject_Z. simpl. lia. }
  destruct (Qle_bool_spec 100 ((Z.of_nat n # Pos.of_nat 30) * 100)) as [H|H];
    rewrite Hv in H.
  - split; [lra|]. split; [intros _; apply H30; lra|reflexivity].
  - split; [rewrite Hv; lra|]. rewrite Hv.
    split; [intros E; lra|intros E; apply H30 in E; lra].
Qed.

Lemma habit_pct_clamped_witness :
  exists q,
    habitPct s_scenario habitA = Fin q
    /\ (0 <= q <= 100)%Q
    /\ ((q == 100)%Q <-> 30 <= habitCount s_scenario habitA).
Proof. apply (habit_pct_clamped s_scenario habitA). Defined.

(** ** Totals *)

Lemma list_sum_map_add {A : Type} (a b : A -> nat) (l : list A) :
  list_sum (map (fun x => a x + b x) l) =
    list_sum (map a l) + list_sum (map b l).
Proof. induction l as [|x l IH]; simpl; lia. Qed.

Lemma list_sum_map_indicator {A : Type} (p : A -> bool) (l : list A) :
  list_sum (map (fun x => if p x then 1 else 0) l) = List.length (filter p l).
Proof.
  induction l as [|x l IH]; simpl; [reflexivity|].
  destruct (p x); simpl; lia.
Qed.

Lemma one_habit_per_id (habits : list Habit.t) (k : string) :
  NoDup (map Habit.id habits) ->
  In k (map Habit.id habits) ->
  List.length (filter (fun h => (k =? Habit.id h)%string) habits) = 1.
Proof.
  induction habits as [|h r IH]; simpl; [tauto|].
  intros Hnd Hin. inversion Hnd as [|i0 ids Hh Hr]; subst.
  destruct (k =? Habit.id h)%string eqn:E.
  - apply String.eqb_eq in E. subst k. simpl. f_equal.
    destruct (filter (fun h0 => (Habit.id h =? Habit.id h0)%string) r)
      as [|y ys] eqn:Ef; [reflexivity|].
    exfalso. apply Hh.
    assert (Hy : In y (filter (fun h0 => (Habit.id h =? Habit.id h0)%string) r))
      by (rewrite Ef; now left).
    apply filter_In in Hy. destruct Hy as [Hy Ey].
    apply String.eqb_eq in Ey. rewrite Ey. now apply in_map.
  - apply String.eqb_neq in E. destruct Hin as [Hin|Hin]; [congruence|].
    now apply IH.
Qed.

Lemma list_sum_map_zero {A : Type} (l : list A) :
  list_sum (map (fun _ => 0) l) = 0.
Proof. induction l as [|x l IH]; simpl; [reflexivity|exact IH]. Qed.

Lemma completed_is_sum_of_counts (habits : list Habit.t) (logs : list DailyLog.t) :
  NoDup (map Habit.id habits) ->
  (forall l, In l logs -> DailyLog.completed l = true ->
             In (DailyLog.habitId l) (map Habit.id habits)) ->
  List.length (filter DailyLog.completed logs) =
    list_sum
      (map (fun h =>
              List.length
                (filter (fun l => (DailyLog.habitId l =? Habit.id h)%string
                                  && DailyLog.completed l) logs))
           habits).
Proof.
  intros Hnd. induction logs as [|x r IH]; intros Hin.
  - simpl. now rewrite list_sum_map_zero.
  - rewrite (map_ext _
      (fun h =>
         (if (DailyLog.habitId x =? Habit.id h)%string && DailyLog.completed x
          then 1 else 0)
         + List.length
             (filter (fun l => (DailyLog.habitId l =? Habit.id h)%string
                               && DailyLog.completed l) r)))
      by (intros h; simpl;
          now destruct ((DailyLog.habitId x =? Habit.id h)%string
                        && DailyLog.completed x)).
    rewrite list_sum_map_add, <- IH by (intros l Hl; apply Hin; now right).
    rewrite list_sum_map_indicator. simpl.
    destruct (DailyLog.completed x) eqn:Ec.
    + rewrite (filter_ext
                 (fun h : Habit.t => (DailyLog.habitId x =? Habit.id h)%string && true)
                 (fun h => (DailyLog.habitId x =? Habit.id h)%string))
        by (intros h; apply andb_true_r).
      rewrite (one_habit_per_id _ _ Hnd (Hin x (or_introl eq_refl) Ec)).
      reflexivity.
    + rewrite (filter_ext
                 (fun h : Habit.t => (DailyLog.habitId x =? Habit.id h)%string && false)
                 (fun _ => false))
        by (intros h; apply andb_false_r).
      replace (filter (fun _ : Habit.t => false) habits) with (@nil Habit.t)
        by (clear; induction habits; simpl; congruence).
      reflexivity.
Qed.

(** X16. When the habits of the catalog have distinct ids and every
    completed record names one of them, the total shown by [StatsView] is
    the sum of the counts shown for the habits. *)
Theorem total_is_sum_of_counts (s : AppState.t) :
  NoDup (map Habit.id (AppState.habits s)) ->
  (forall l, In l (AppState.dailyLogs s) -> DailyLog.completed l = true ->
             In (DailyLog.habitId l) (map Habit.id (AppState.habits s))) ->
  totalLogs s = list_sum (map (habitCount s) (AppState.habits s)).
Proof.
  intros Hnd Hin. unfold totalLogs.
  rewrite (completed_is_sum_of_counts _ _ Hnd Hin). reflexivity.
Qed.

Lemma total_is_sum_of_counts_witness :
  totalLogs s_scenario =
    list_sum (map (habitCount s_scenario) (AppState.habits s_scenario)).
Proof.
  apply (total_is_sum_of_counts s_scenario).
  - simpl. repeat constructor; simpl; intuition discriminate.
  - simpl. intros l Hl _.
    repeat (destruct Hl as [<-|Hl]; [simpl; tauto|]). destruct Hl.
Defined.

(** ** Saving to local storage and loading again *)

(** X17. [setValue] always installs the new value in React state.  When
    the value serialises to non-empty text that parses back to it and the
    write goes through, loading the same key from the storage afterwards
    gives the value back, and the texts under the other keys are as they
    were.  When [JSON.stringify] or [setItem] throws, the storage is left
    as it was. *)
Theorem setValue_then_load (T : Type)
  (JSON_stringify : T -> Completion string)
  (JSON_parse : string -> Completion T)
  (key : string) (value : NewValue T) (storedValue default : T)
  (storage : Storage) (quotaExceeded : bool) :
  let valueToStore :=
    match value with
    | Plain v => v
    | Updater f => f storedValue
    end in
  let result :=
    setValue JSON_stringify key value storedValue storage quotaExceeded in
  fst result = valueToStore
  /\ (forall text,
        JSON_stringify valueToStore = Normal text ->
        text <> EmptyString ->
        JSON_parse text = Normal valueToStore ->
        quotaExceeded = false ->
        useLocalStorage_initializer (fun k => Normal (snd result k))
                                    JSON_parse key default =
          Normal valueToStore
        /\ forall key', key' <> key -> snd result key' = storage key')
  /\ (quotaExceeded = true \/ (exists e, JSON_stringify valueToStore = Throw e) ->
      snd result = storage).
Proof.
  cbv zeta. unfold setValue.
  set (v := match value with Plain v => v | Updater f => f storedValue end).
  split; [|split].
  - destruct (JSON_stringify v); [destruct quotaExceeded|]; reflexivity.
  - intros text Hs Hne Hp Hq. rewrite Hs, Hq. simpl. split.
    + unfold useLocalStorage_initializer, tryCatch, andThen, storagePut.
      rewrite String.eqb_refl.
      replace (truthy text) with true; [now rewrite Hp|].
      symmetry. unfold truthy. apply negb_true_iff. now apply String.eqb_neq.
    + intros key' Hk. unfold storagePut.
      now replace (key' =? key)%string with false
        by (symmetry; now apply String.eqb_neq).
  - intros [Hq|[e He]].
    + rewrite Hq. now destruct (JSON_stringify v).
    + now rewrite He.
Qed.

Lemma setValue_then_load_witness :
  useLocalStorage_initializer
    (fun k => Normal (snd (setValue stringifyBool "flag" (Plain true) false
                                    emptyStorage false) k))
    parseBool "flag" false = Normal true.
Proof.
  apply (proj1 (proj1 (proj2
    (setValue_then_load bool stringifyBool parseBool "flag" (Plain true)
       false false emptyStorage false))
    "true" eq_refl ltac:(discriminate) eq_refl eq_refl)).
Defined.

(** ** Date keys *)

(** X18. [toISODate] keeps the date part of an ISO timestamp: the text in
    front of the first ['T'].  For [date ++ "T" ++ time] with no ['T'] in
    [date] it returns [date]; whatever the text, the result holds no
    ['T'] and is a prefix of the text. *)
Theorem toISODate_date_part :
  (forall date time,
      ~ In "T"%char (list_ascii_of_string date) ->
      toISODate (date ++ String "T" time) = date)
  /\ (forall text, ~ In "T"%char (list_ascii_of_string (toISODate text)))
  /\ (forall text, exists rest, text = (toISODate text ++ rest)%string).
Proof.
  split; [|split].
  - induction date as [|c d IH]; intros time Hno; simpl; [reflexivity|].
    destruct (c =? "T")%char eqn:E.
    + apply Ascii.eqb_eq in E. subst c. exfalso. apply Hno. now left.
    + f_equal. apply IH. intros Hin. apply Hno. now right.
  - induction text as [|c t IH]; simpl; [tauto|].
    destruct (c =? "T")%char eqn:E; simpl; [tauto|].
    intros [H|H]; [|now apply IH].
    apply Ascii.eqb_neq in E. congruence.
  - induction text as [|c t [rest IH]]; simpl; [now exists EmptyString|].
    destruct (c =? "T")%char.
    + now exists (String c t).
    + exists rest. simpl. now rewrite <- IH.
Qed.

Lemma toISODate_date_part_witness :
  toISODate ("2026-12-31" ++ String "T" "10:15:00.000Z") = "2026-12-31".
Proof.
  apply (proj1 toISODate_date_part "2026-12-31" "10:15:00.000Z").
  simpl. intuition discriminate.
Defined.

(** ** Flags of a fetch *)

(** X19. A fetch starts by clearing the error of the previous one and
    never touches [isSyncing].  Without configuration it ends with
    [isLoading] still set (the 500 ms timer clears it later) and no error.
    With configuration it waits 800 ms and ends with [isLoading] cleared
    whether the wait resolves or rejects; the error is then empty in the
    first case and the rejection's message in the second, or
    ["Error syncing"] when that message is empty. *)
Theorem fetchData_flags (config : Config.t) (awaited : Settled) (w : App.t) :
  let w' := after (fetchData config awaited) w in
  Hook.isSyncing (App.hook w') = Hook.isSyncing (App.hook w)
  /\ (hasConfig config = false ->
      Hook.isLoading (App.hook w') = true
      /\ Hook.error (App.hook w') = None)
  /\ (hasConfig config = true ->
      Hook.isLoading (App.hook w') = false
      /\ trace (fetchData config awaited) w = [Sleep 800]
      /\ Hook.error (App.hook w') =
           match awaited with
           | Resolved => None
           | Rejected message =>
               Some (if truthy message then message else "Error syncing")
           end).
Proof.
  cbv zeta. unfold after, trace, fetchData, bind. simpl.
  destruct (hasConfig config), awaited; simpl;
    repeat split; intros; try discriminate; reflexivity.
Qed.

Lemma fetchData_flags_witness :
  Hook.isLoading (App.hook (after (fetchData cfg_full (Rejected EmptyString))
                                  w_duplicates)) = false
  /\ trace (fetchData cfg_full (Rejected EmptyString)) w_duplicates = [Sleep 800]
  /\ Hook.error (App.hook (after (fetchData cfg_full (Rejected EmptyString))
                                 w_duplicates)) = Some "Error syncing".
Proof.
  apply (proj2 (proj2 (fetchData_flags cfg_full (Rejected EmptyString)
                         w_duplicates)) eq_refl).
Defined.

(** ** A session on the Today view *)










(** ** Mood writes in the running application *)

Lemma handleMoodChangeOn_rendered (config : Config.t) (today : string)
  (type : MoodKind) (val : Z) (w : App.t) :
  handleMoodChangeOn w config today type val w =
    handleMoodChange config today type val w.
Proof.
  unfold handleMoodChangeOn, handleMoodChange, updateMoodLogOn, updateMoodLog,
    bind, getApp, dispatch. simpl.
  destruct (hasConfig config); reflexivity.
Qed.

(** One slider change and the render after it: the state then holds the
    store's mood logs, where the new record stands in the place of the
    first record the store had for the date. *)
Lemma moodEvent_after (config : Config.t) (today : string)
  (type : MoodKind) (val : Z) (w : App.t) :
  let w' := after (moodEvent config today type val) w in
  AppState.moodLogs (App.state w') = Hook.localMoodLogs (App.hook w')
  /\ moodsFor today (AppState.moodLogs (App.state w')) =
       newMood today (App.state w) type val
       :: tl (moodsFor today (Hook.localMoodLogs (App.hook w))).
Proof.
  cbv zeta. unfold moodEvent. rewrite after_bind.
  destruct (syncData_fields (after (handleMoodChange config today type val) w))
    as [Eh [_ [_ [Fm _]]]].
  rewrite Eh, Fm. split; [reflexivity|].
  destruct (handleMoodChange_after config today type val w) as [_ [Em _]].
  rewrite Em. cbv zeta. unfold moodsFor.
  rewrite (upsert_filter (sameDate today) _ _ (sameDate_refl _ _ _)).
  f_equal. now rewrite (newMood_eq today (App.state w) type val).
Qed.

Lemma moodEvents_cons (config : Config.t) (today : string)
  (type : MoodKind) (val : Z) (rest : list (MoodKind * Z)) (w : App.t) :
  after (moodEvents config today ((type, val) :: rest)) w =
    after (moodEvents config today rest)
          (after (moodEvent config today type val) w).
Proof. simpl. now rewrite after_bind. Qed.

Lemma moodEvents_run (config : Config.t) (today : string)
  (rest : list (MoodKind * Z)) :
  forall (type : MoodKind) (val : Z) (w : App.t),
    let w' := after (moodEvents config today ((type, val) :: rest)) w in
    AppState.moodLogs (App.state w') = Hook.localMoodLogs (App.hook w')
    /\ moodsFor today (AppState.moodLogs (App.state w')) =
         MoodLog.mk today
           (lastWritten mood ((type, val) :: rest)
              (MoodLog.moodScore (currentMood today (App.state w))))
           (lastWritten motivation ((type, val) :: rest)
              (MoodLog.motivationScore (currentMood today (App.state w))))
         :: tl (moodsFor today (Hook.localMoodLogs (App.hook w))).
Proof.
  induction rest as [|[type' val'] rest IH]; intros type val w; cbv zeta;
    rewrite moodEvents_cons;
    destruct (moodEvent_after config today type val w) as [E1 M1].
  - change (after (moodEvents config today []) ?x) with x.
    split; [exact E1|]. now rewrite M1, newMood_eq.
  - destruct (IH type' val' (after (moodEvent config today type val) w))
      as [E2 M2].
    split; [exact E2|]. rewrite M2.
    unfold currentMood at 1 2.
    rewrite (find_filter_head _ _ _ _ M1).
    rewrite <- E1, M1, newMood_eq. reflexivity.
Qed.

(** C3, as the code has it.  Take any non-empty sequence of slider changes
    for a date, each handled on the render that follows the previous one,
    whose effect copies the store's collections into the state.
    Afterwards the state holds the mood logs of the store.  Its first
    record for the date carries, for each score, the last value written
    to it, or the value current before the run for a score never written
    (that of the record found in the state, 5 when there was none): a
    change of the mood slider alone leaves [motivationScore] at its
    current value.  Behind it stand the further records the store held
    for the date, so it is the only record for the date exactly when the
    store held at most one. *)
Theorem mood_events_last_wins (config : Config.t) (today : string)
  (w : App.t) (writes : list (MoodKind * Z)) :
  writes <> [] ->
  let w' := after (moodEvents config today writes) w in
  let final :=
    MoodLog.mk today
      (lastWritten mood writes
         (MoodLog.moodScore (currentMood today (App.state w))))
      (lastWritten motivation writes
         (MoodLog.motivationScore (currentMood today (App.state w)))) in
  AppState.moodLogs (App.state w') = Hook.localMoodLogs (App.hook w')
  /\ moodsFor today (AppState.moodLogs (App.state w')) =
       final :: tl (moodsFor today (Hook.localMoodLogs (App.hook w)))
  /\ (List.length (moodsFor today (Hook.localMoodLogs (App.hook w))) <= 1 ->
      moodsFor today (AppState.moodLogs (App.state w')) = [final])
  /\ (forall val,
      moodsFor today
        (AppState.moodLogs
           (App.state (after (moodEvent config today mood val) w))) =
        MoodLog.mk today val
          (MoodLog.motivationScore (currentMood today (App.state w)))
        :: tl (moodsFor today (Hook.localMoodLogs (App.hook w)))).
Proof.
  intros Hne. cbv zeta.
  destruct writes as [|[type val] rest]; [congruence|].
  destruct (moodEvents_run config today rest type val w) as [E M].
  split; [exact E|]. split; [exact M|]. split.
  - intros Hone. rewrite M.
    destruct (moodsFor today (Hook.localMoodLogs (App.hook w)))
      as [|x [|y r]]; [reflexivity|reflexivity|simpl in Hone; lia].
  - intros v. destruct (moodEvent_after config today mood v w) as [_ M1].
    now rewrite M1, newMood_eq.
Qed.

Lemma mood_events_last_wins_witness :
  moodsFor "2026-12-31"
    (AppState.moodLogs
       (App.state
          (after (moodEvents cfg_none "2026-12-31"
                    [(mood, 7%Z); (motivation, 2%Z); (mood, 9%Z)])
                 w_scenario))) =
    [MoodLog.mk "2026-12-31" 9 2].
Proof.
  apply (proj1 (proj2 (proj2
    (mood_events_last_wins cfg_none "2026-12-31" w_scenario
       [(mood, 7%Z); (motivation, 2%Z); (mood, 9%Z)]
       ltac:(discriminate))))).
  simpl. lia.
Defined.

(** C3 as stated fails in two ways.  Over a store that holds two mood
    records for the date, one slider change and the render after it leave
    two records for the date in the state: the rewritten first one and
    the untouched second one.  And two slider changes handled by the
    handlers of one and the same render lose the first write: after mood
    7 then motivation 2 on a state with no record, the record is 5 and
    2. *)
Lemma mood_event_keeps_store_duplicates :
  moodsFor "2026-12-31"
    (AppState.moodLogs
       (App.state
          (after (moodEvents cfg_none "2026-12-31" [(mood, 9%Z)])
                 w_duplicates_synced))) =
    [MoodLog.mk "2026-12-31" 9 4; MoodLog.mk "2026-12-31" 6 7]
  /\ moodsFor "2026-12-31"
       (AppState.moodLogs
          (App.state
             (after (handleMoodChangeOn w_scenario cfg_none "2026-12-31" mood 7 ;;
                     handleMoodChangeOn w_scenario cfg_none "2026-12-31"
                                        motivation 2)
                    w_scenario))) =
     [MoodLog.mk "2026-12-31" 5 2].
Proof. split; reflexivity. Qed.
